(** * Maal AI tool layer: a shallow embedding of [tools_capstone.py]

    The development follows the Python module top to bottom:
    - [Py]: the fragment of Python's data model the module relies on
      (JSON-like values, truthiness, [dict] and [str] methods);
    - [Response] and [PyExc]: what the module reads of a [requests] response
      and the exceptions its handlers tell apart;
    - [PyFloatConv]: the builtin [float()];
    - [Http]: requests, the outside world, and the small monad in which
      network code runs;
    - [PyDyn]: methods and operators applied to values of unknown type;
    - [Tools]: the two adapters, the three tools and the session history
      factory, each under the name it has in the source;
    - the vocabulary of the properties, and the properties themselves. *)

From Stdlib Require Import ZArith String Ascii List Bool Lia.
From Stdlib Require Import Floats DecimalString.
From stdpp Require Import base gmap strings.
Import ListNotations.

Local Open Scope string_scope.
Local Open Scope Z_scope.

(** ** Results of fallible computations *)

Inductive result (A E : Type) : Type :=
| Ok (value : A)
| Raise (exc : E).
Arguments Ok {A E} value.
Arguments Raise {A E} exc.

Module Py.

(** *** Values

    The values that travel through the module are those JSON can carry plus
    what a caller may pass to a tool: [None], booleans, integers, floats,
    strings, lists and dictionaries keyed by strings. A [dict] keeps insertion
    order, so it is an association list; a well-formed one has no repeated
    key. A string is a sequence of bytes; it stands for a [str] of ASCII
    characters when [is_ascii] holds of it. *)

#[warnings="-register-all"]
Inductive PyVal : Type :=
| PyNone
| PyBool (b : bool)
| PyInt (n : Z)
| PyFloat (x : float)
| PyStr (s : string)
| PyList (items : list PyVal)
| PyDict (entries : list (string * PyVal)).

(** [isinstance(v, dict)] and [isinstance(v, str)]. *)
Definition is_dict (v : PyVal) : bool :=
  match v with PyDict _ => true | _ => false end.

Definition is_str (v : PyVal) : bool :=
  match v with PyStr _ => true | _ => false end.

(** Truth value testing ([bool(v)]): [None], [False], zero of any numeric type
    and empty containers are false, everything else (NaN included) is true. *)
Definition truthy (v : PyVal) : bool :=
  match v with
  | PyNone => false
  | PyBool b => b
  | PyInt n => negb (n =? 0)
  | PyFloat x => negb (PrimFloat.eqb x 0%float)
  | PyStr s => negb (String.eqb s "")
  | PyList items => match items with [] => false | _ => true end
  | PyDict entries => match entries with [] => false | _ => true end
  end.

(** [a or b] *)
Definition py_or (a b : PyVal) : PyVal := if truthy a then a else b.

(** *** Dictionaries *)

Fixpoint lookup_key (k : string) (entries : list (string * PyVal)) : option PyVal :=
  match entries with
  | [] => None
  | (k', v) :: rest => if String.eqb k k' then Some v else lookup_key k rest
  end.

(** [k in d] for a dictionary [d]. *)
Definition has_key (k : string) (entries : list (string * PyVal)) : bool :=
  match lookup_key k entries with Some _ => true | None => false end.

(** [d.get(k)] and [d.get(k, default)]. *)
Definition dict_get (entries : list (string * PyVal)) (k : string) : PyVal :=
  match lookup_key k entries with Some v => v | None => PyNone end.

Definition dict_get_default (entries : list (string * PyVal)) (k : string)
    (default : PyVal) : PyVal :=
  match lookup_key k entries with Some v => v | None => default end.

(** [d[k] = v]: the value of an existing key is replaced in place, a new key
    goes to the end. *)
Fixpoint dict_set {V : Type} (k : string) (v : V) (entries : list (string * V))
    : list (string * V) :=
  match entries with
  | [] => [(k, v)]
  | (k', v') :: rest =>
      if String.eqb k k' then (k, v) :: rest else (k', v') :: dict_set k v rest
  end.

(** [d.update(other)] *)
Definition dict_update {V : Type} (entries other : list (string * V))
    : list (string * V) :=
  fold_left (fun acc kv => dict_set (fst kv) (snd kv) acc) other entries.

(** *** Strings

    The methods below are those of [str] on ASCII text. Outside ASCII
    [str.strip] also removes Unicode whitespace (U+00A0, U+0085, ...) and
    [str.upper] maps further letters, which these definitions do not follow:
    a property that depends on them holds of the code for the strings
    [is_ascii] accepts. *)

(** [s.isascii()] *)
Fixpoint is_ascii (s : string) : bool :=
  match s with
  | EmptyString => true
  | String c rest => (N_of_ascii c <? 128)%N && is_ascii rest
  end.

(** [str.isspace] on one ASCII character: tab, line feed, vertical tab, form
    feed, carriage return, the four separators 0x1c-0x1f and the space. *)
Definition isspace (c : ascii) : bool :=
  let n := N_of_ascii c in
  ((9 <=? n) && (n <=? 13) || (28 <=? n) && (n <=? 32))%N.

Fixpoint lstrip (s : string) : string :=
  match s with
  | EmptyString => EmptyString
  | String c rest => if isspace c then lstrip rest else s
  end.

(** Trailing whitespace is dropped from the right end: a character stays when
    it is not a space or when something other than spaces follows it. *)
Fixpoint rstrip (s : string) : string :=
  match s with
  | EmptyString => EmptyString
  | String c rest =>
      match rstrip rest with
      | EmptyString => if isspace c then EmptyString else String c EmptyString
      | kept => String c kept
      end
  end.

(** [s.strip()] *)
Definition strip (s : string) : string := rstrip (lstrip s).

Definition upper_char (c : ascii) : ascii :=
  let n := N_of_ascii c in
  if ((97 <=? n) && (n <=? 122))%N then ascii_of_N (n - 32) else c.

Definition lower_char (c : ascii) : ascii :=
  let n := N_of_ascii c in
  if ((65 <=? n) && (n <=? 90))%N then ascii_of_N (n + 32) else c.

Fixpoint map_chars (f : ascii -> ascii) (s : string) : string :=
  match s with
  | EmptyString => EmptyString
  | String c rest => String (f c) (map_chars f rest)
  end.

(** [s.upper()] and [s.lower()] *)
Definition upper (s : string) : string := map_chars upper_char s.

Definition lower (s : string) : string := map_chars lower_char s.

(** [sub in s] for strings. *)
Fixpoint contains_substring (sub s : string) : bool :=
  String.prefix sub s ||
  match s with
  | EmptyString => false
  | String _ rest => contains_substring sub rest
  end.

(** [str(n)] for an integer. *)
Definition str_of_int (n : Z) : string := NilZero.string_of_int (Z.to_int n).

End Py.

(** ** What the module sees of [requests]

    A response object is modelled by the attributes and method results the
    module reads: [status_code], [reason], [text] and the outcome of
    [json()], which is either the parsed body or a [JSONDecodeError] with its
    message. *)

Record Response : Type := {
  status_code : Z;
  reason : string;
  text : string;
  json : result Py.PyVal string
}.

(** ** Exceptions

    The handlers of the module tell three families apart:
    [requests.exceptions.HTTPError], which carries the response that caused
    it; [ValueError] with its subclasses ([JSONDecodeError], [InvalidURL],
    ...); and every other [Exception]. The last two record the name of the
    concrete class, [type(e).__name__], and the message, [str(e)]. *)

Inductive PyExc : Type :=
| HTTPError (response : Response) (message : string)
| ValueError (type_name message : string)
| OtherError (type_name message : string).

Definition exc_type_name (e : PyExc) : string :=
  match e with
  | HTTPError _ _ => "HTTPError"
  | ValueError n _ => n
  | OtherError n _ => n
  end.

Definition exc_str (e : PyExc) : string :=
  match e with
  | HTTPError _ m => m
  | ValueError _ m => m
  | OtherError _ m => m
  end.

(** ** [float(x)] *)

Module PyFloatConv.
Import Py.

Definition is_digit (c : ascii) : bool :=
  let n := N_of_ascii c in ((48 <=? n) && (n <=? 57))%N.

Definition digit_value (c : ascii) : Z := Z.of_N (N_of_ascii c) - 48.

(** The longest prefix of decimal digits, as the number it denotes together
    with its length, and what follows it. *)
Fixpoint span_digits (acc : Z) (len : Z) (s : string) : Z * Z * string :=
  match s with
  | String c rest =>
      if is_digit c then span_digits (10 * acc + digit_value c) (len + 1) rest
      else (acc, len, s)
  | EmptyString => (acc, len, s)
  end.

(** Underscores may only sit between two digits; they are removed before the
    number is read. [prev] is the character before the current one. *)
Fixpoint drop_underscores (prev : option ascii) (s : string) : option string :=
  match s with
  | EmptyString =>
      match prev with
      | Some "_"%char => None
      | _ => Some EmptyString
      end
  | String c rest =>
      if Ascii.eqb c "_" then
        match prev with
        | Some p => if is_digit p then drop_underscores (Some c) rest else None
        | None => None
        end
      else
        match prev with
        | Some "_"%char =>
            if is_digit c
            then option_map (String c) (drop_underscores (Some c) rest)
            else None
        | _ => option_map (String c) (drop_underscores (Some c) rest)
        end
  end.

Definition take_sign (s : string) : bool * string :=
  match s with
  | String "-" rest => (true, rest)
  | String "+" rest => (false, rest)
  | _ => (false, s)
  end.

(** The double nearest to [(-1)^neg * m * 10^e], ties to even; an overflow
    gives an infinity. *)
Definition float_of_decimal (neg : bool) (m : Z) (e : Z) : float :=
  match m with
  | Zpos p =>
      if 0 <=? e
      then SF2Prim (binary_normalize prec emax
                      (if neg then - (m * 10 ^ e) else m * 10 ^ e) 0 false)
      else
        match 10 ^ (- e) with
        | Zpos q => SF2Prim (SFdiv prec emax (S754_finite neg p 0)
                                             (S754_finite false q 0))
        | _ => nan
        end
  | _ => if neg then neg_zero else zero
  end.

(** [inf], [infinity] and [nan], in any letter case. *)
Definition parse_inf_or_nan (neg : bool) (s : string) : option float :=
  let low := lower s in
  if String.eqb low "inf" || String.eqb low "infinity"
  then Some (if neg then neg_infinity else infinity)
  else if String.eqb low "nan" then Some nan
  else None.

(** A decimal literal: digits with an optional point, at least one digit in
    all, then an optional exponent with at least one digit. *)
Definition parse_decimal (neg : bool) (s : string) : option float :=
  let '(ipart, ilen, rest1) := span_digits 0 0 s in
  let '(mant, flen, rest2) :=
    match rest1 with
    | String "." after => span_digits ipart 0 after
    | _ => (ipart, 0, rest1)
    end in
  if ilen + flen =? 0 then None
  else
    match rest2 with
    | EmptyString => Some (float_of_decimal neg mant (- flen))
    | String c after =>
        if Ascii.eqb c "e" || Ascii.eqb c "E" then
          let '(eneg, digits) := take_sign after in
          let '(ev, elen, rest3) := span_digits 0 0 digits in
          if elen =? 0 then None
          else
            match rest3 with
            | EmptyString =>
                Some (float_of_decimal neg mant ((if eneg then - ev else ev) - flen))
            | _ => None
            end
        else None
    end.

(** The whitespace [float()] skips around an ASCII literal is that of C's
    [isspace]: tab, line feed, vertical tab, form feed, carriage return and
    the space. Unlike [str.strip] it keeps the separators 0x1c-0x1f, which
    then make the literal invalid. *)
Definition is_c_space (c : ascii) : bool :=
  let n := N_of_ascii c in
  ((9 <=? n) && (n <=? 13) || (n =? 32))%N.

Fixpoint skip_leading_space (s : string) : string :=
  match s with
  | EmptyString => EmptyString
  | String c rest => if is_c_space c then skip_leading_space rest else s
  end.

Fixpoint drop_trailing_space (s : string) : string :=
  match s with
  | EmptyString => EmptyString
  | String c rest =>
      match drop_trailing_space rest with
      | EmptyString => if is_c_space c then EmptyString else String c EmptyString
      | kept => String c kept
      end
  end.

(** [float(s)] for an ASCII string: the underscores are checked and removed,
    the surrounding whitespace is skipped, and what is left must be a
    literal. *)
Definition float_of_str (s : string) : option float :=
  match drop_underscores None s with
  | None => None
  | Some clean =>
      let '(neg, body) := take_sign (drop_trailing_space (skip_leading_space clean)) in
      match parse_decimal neg body with
      | Some x => Some x
      | None => parse_inf_or_nan neg body
      end
  end.

(** [float(n)] for an integer: the nearest double, or [OverflowError] when
    that would be an infinity. *)
Definition float_of_int (n : Z) : option float :=
  match binary_normalize prec emax n 0 false with
  | S754_infinity _ => None
  | x => Some (SF2Prim x)
  end.

Definition py_float (v : PyVal) : result float PyExc :=
  match v with
  | PyFloat x => Ok x
  | PyInt n =>
      match float_of_int n with
      | Some x => Ok x
      | None => Raise (OtherError "OverflowError" "int too large to convert to float")
      end
  | PyBool b => Ok (if b then 1%float else 0%float)
  | PyStr s =>
      match float_of_str s with
      | Some x => Ok x
      | None => Raise (ValueError "ValueError" "could not convert string to float")
      end
  | PyNone | PyList _ | PyDict _ =>
      Raise (OtherError "TypeError" "float() argument must be a string or a real number")
  end.

End PyFloatConv.

(** ** Network code

    A computation that may call the network is run against a [Transport], the
    outside world's answer to each request: a response object, or the
    exception [requests] raises when no response is obtained. Running it
    yields the value returned or the exception that escapes, and the requests
    issued, in order. *)

Module Http.
Import Py.

(** [requests.get(url, headers=...)] and [requests.post(url, headers=...,
    data=json.dumps(payload))]. Every value of [PyVal] is serialisable and
    [json.dumps] writes a dictionary key for key, so a POST is recorded with
    the document that is serialised into its body. *)
Inductive Request : Type :=
| GET (url : string) (headers : list (string * string))
| POST (url : string) (headers : list (string * string)) (payload : PyVal).

Definition Transport : Type := Request -> result Response PyExc.

Definition Net (A : Type) : Type := Transport -> result A PyExc * list Request.

#[export] Instance net_ret : MRet Net := fun A a _ => (Ok a, []).

#[export] Instance net_bind : MBind Net := fun A B k c world =>
  match c world with
  | (Ok a, sent) => let '(r, sent') := k a world in (r, (sent ++ sent')%list)
  | (Raise e, sent) => (Raise e, sent)
  end.

(** A computation that only returns or raises. *)
Definition lift {A : Type} (r : result A PyExc) : Net A := fun _ => (r, []).

(** [try: body  except Exception as e: handler e] *)
Definition try_except {A : Type} (body : Net A) (handler : PyExc -> Net A) : Net A :=
  fun world =>
    match body world with
    | (Ok a, sent) => (Ok a, sent)
    | (Raise e, sent) => let '(r, sent') := handler e world in (r, (sent ++ sent')%list)
    end.

Definition send (req : Request) : Net Response := fun world => (world req, [req]).

Definition requests_get (url : string) (headers : list (string * string)) : Net Response :=
  send (GET url headers).

Definition requests_post (url : string) (headers : list (string * string))
    (payload : PyVal) : Net Response :=
  send (POST url headers payload).

(** [response.raise_for_status()]: statuses 400 to 599 raise [HTTPError]. *)
Definition raise_for_status (url : string) (response : Response) : result unit PyExc :=
  let code := status_code response in
  if (400 <=? code) && (code <? 500) then
    Raise (HTTPError response
             (str_of_int code ++ " Client Error: " ++ reason response ++ " for url: " ++ url))
  else if (500 <=? code) && (code <? 600) then
    Raise (HTTPError response
             (str_of_int code ++ " Server Error: " ++ reason response ++ " for url: " ++ url))
  else Ok tt.

(** [response.json()] *)
Definition response_json (response : Response) : result PyVal PyExc :=
  match json response with
  | Ok body => Ok body
  | Raise message => Raise (ValueError "JSONDecodeError" message)
  end.

Definition outcome {A : Type} (c : Net A) (world : Transport) : result A PyExc :=
  fst (c world).

Definition requests_sent {A : Type} (c : Net A) (world : Transport) : list Request :=
  snd (c world).

End Http.

(** ** Operators and methods applied to a value of unknown type *)

Module PyDyn.
Import Py.

Definition type_name (v : PyVal) : string :=
  match v with
  | PyNone => "NoneType"
  | PyBool _ => "bool"
  | PyInt _ => "int"
  | PyFloat _ => "float"
  | PyStr _ => "str"
  | PyList _ => "list"
  | PyDict _ => "dict"
  end.

Definition no_attribute (v : PyVal) (attr : string) : PyExc :=
  OtherError "AttributeError"
    ("'" ++ type_name v ++ "' object has no attribute '" ++ attr ++ "'").

(** [v.get(k)] *)
Definition py_get (v : PyVal) (k : string) : result PyVal PyExc :=
  match v with
  | PyDict entries => Ok (dict_get entries k)
  | _ => Raise (no_attribute v "get")
  end.

(** [v.get(k, default)] *)
Definition py_get_default (v : PyVal) (k : string) (default : PyVal)
    : result PyVal PyExc :=
  match v with
  | PyDict entries => Ok (dict_get_default entries k default)
  | _ => Raise (no_attribute v "get")
  end.

(** [k in v] for a string [k]: key membership in a dictionary, element
    membership in a list (only a string equals a string), substring test in a
    string; the other types are not containers. *)
Definition py_in (k : string) (v : PyVal) : result bool PyExc :=
  match v with
  | PyDict entries => Ok (has_key k entries)
  | PyList items =>
      Ok (existsb (fun item => match item with
                               | PyStr s => String.eqb k s
                               | _ => false
                               end) items)
  | PyStr s => Ok (contains_substring k s)
  | _ => Raise (OtherError "TypeError"
                  ("argument of type '" ++ type_name v ++ "' is not iterable"))
  end.

End PyDyn.

(** ** [tools_capstone.py] *)

Module Tools.
Import Py PyFloatConv PyDyn Http.

Section Config.

(** The API keys read from the secrets store when the module is loaded. *)
Variables (GROQ_API_KEY FINNHUB_API_KEY ZOYA_API_KEY : string).

(** *** The REST adapter *)

Definition unexpected_error (e : PyExc) : string :=
  "Unexpected error: " ++ exc_type_name e ++ " - " ++ exc_str e.

Definition http_error (response : Response) : string :=
  "HTTPError " ++ str_of_int (status_code response) ++ " - " ++ reason response.

Definition retrieve_from_endpoint (url : string) : Net PyVal :=
  let headers := [("X-Finnhub-Token", FINNHUB_API_KEY)] in
  try_except
    (response ← requests_get url headers;
     _ ← lift (raise_for_status url response);
     data ← lift (response_json response);
     mret data)
    (fun e =>
       match e with
       | HTTPError response _ =>
           mret (PyDict [("error", PyStr (http_error response));
                         ("url", PyStr url);
                         ("detail", PyStr (text response))])
       | _ =>
           mret (PyDict [("error", PyStr (unexpected_error e));
                         ("url", PyStr url)])
       end).

(** *** The GraphQL adapter *)

(** The request document: [variables] is stored unless it is [None],
    [operation_name] is stored when it is true in a condition. *)
Definition graphql_payload (query : string) (variables operation_name : PyVal)
    : list (string * PyVal) :=
  let payload := [("query", PyStr query)] in
  let payload :=
    match variables with
    | PyNone => payload
    | _ => dict_set "variables" variables payload
    end in
  if truthy operation_name
  then dict_set "operationName" operation_name payload
  else payload.

Definition graphql_headers (extra_headers : option (list (string * string)))
    : list (string * string) :=
  let headers := [("Authorization", ZOYA_API_KEY);
                  ("Content-Type", "application/json");
                  ("Accept", "application/json")] in
  match extra_headers with
  | Some (entry :: more) => dict_update headers (entry :: more)
  | _ => headers
  end.

Definition retrieve_graphql_endpoint (endpoint query : string)
    (variables operation_name : PyVal)
    (extra_headers : option (list (string * string))) : Net PyVal :=
  let headers := graphql_headers extra_headers in
  let payload := graphql_payload query variables operation_name in
  try_except
    (response ← requests_post endpoint headers (PyDict payload);
     _ ← lift (raise_for_status endpoint response);
     body ← lift (response_json response);
     match body with
     | PyDict entries =>
         if truthy (dict_get entries "errors") then
           mret (PyDict [("error", PyStr "GraphQLError");
                         ("errors", dict_get entries "errors");
                         ("request", PyDict [("endpoint", PyStr endpoint);
                                             ("operationName", operation_name);
                                             ("variables", variables)])])
         else mret (PyDict [("data", dict_get entries "data")])
     | _ => mret (PyDict [("data", PyNone)])
     end)
    (fun e =>
       match e with
       | HTTPError response _ =>
           mret (PyDict [("error", PyStr (http_error response));
                         ("url", PyStr endpoint);
                         ("detail", PyStr (text response))])
       | ValueError _ _ =>
           mret (PyDict [("error", PyStr (unexpected_error e));
                         ("url", PyStr endpoint);
                         ("detail", PyStr "Failed to parse JSON response.")])
       | OtherError _ _ =>
           mret (PyDict [("error", PyStr (unexpected_error e));
                         ("url", PyStr endpoint)])
       end).

(** *** The compliance report tool *)

Definition query_compliance_report : string :=
"
query getReport($symbol: String!) {
  basicCompliance {
    report(symbol: $symbol) {
      exchange
      name
      purificationRatio
      reportDate
      status
      symbol
    }
  }
}
".

Definition compliance_endpoint : string := "https://api.zoya.finance/graphql".

Definition invalid_symbol : PyVal :=
  PyDict [("error", PyStr "InvalidInput");
          ("detail", PyStr "symbol must be a non-empty string.")].

Definition not_found (symbol : string) : PyVal :=
  PyDict [("error", PyStr "NotFound");
          ("detail", PyStr ("No compliance report found for symbol '" ++ symbol ++ "'."))].

(** [(data.get("basicCompliance") or {}).get("report")] with
    [data = result["data"] or {}]. *)
Definition report_of (result_data : PyVal) : result PyVal PyExc :=
  let data := py_or result_data (PyDict []) in
  match py_get data "basicCompliance" with
  | Ok compliance => py_get (py_or compliance (PyDict [])) "report"
  | Raise e => Raise e
  end.

Definition get_compliance_report (symbol : PyVal) : Net PyVal :=
  match symbol with
  | PyStr s =>
      if truthy (PyStr (strip s)) then
        let normalized := upper (strip s) in
        let variables := PyDict [("symbol", PyStr normalized)] in
        result ← retrieve_graphql_endpoint compliance_endpoint query_compliance_report
                   variables (PyStr "getReport") None;
        match result with
        | PyDict entries =>
            if has_key "data" entries then
              report ← lift (report_of (dict_get entries "data"));
              match report with
              | PyNone => mret (not_found normalized)
              | _ => mret result
              end
            else mret result
        | _ => mret result
        end
      else mret invalid_symbol
  | _ => mret invalid_symbol
  end.

(** *** The purification calculator *)

Definition coerce_inputs (purification_ratio capital_gain dividend_income : PyVal)
    : result (float * float * float) PyExc :=
  match py_float purification_ratio with
  | Raise e => Raise e
  | Ok r =>
      match py_float capital_gain with
      | Raise e => Raise e
      | Ok cg =>
          match py_float dividend_income with
          | Raise e => Raise e
          | Ok dv => Ok (r, cg, dv)
          end
      end
  end.

Definition get_purification_amount
    (purification_ratio capital_gain dividend_income : PyVal) : Net PyVal :=
  match coerce_inputs purification_ratio capital_gain dividend_income with
  | Raise _ =>
      mret (PyDict [("status", PyStr "error");
                    ("error", PyStr "InvalidInput");
                    ("detail", PyStr "All inputs must be numbers.")])
  | Ok (r, cg, dv) =>
      let amount := (r * (cg + dv))%float in
      mret (PyDict [("status", PyStr "ok");
                    ("ratio_used", PyFloat r);
                    ("inputs", PyDict [("capital_gain", PyFloat cg);
                                       ("dividend_income", PyFloat dv)]);
                    ("amount", PyFloat amount)])
  end.

(** The defaults of [capital_gain] and [dividend_income]. *)
Definition default_income : PyVal := PyFloat 0%float.

(** *** The company metrics tool *)

Definition metrics_url (stock : string) : string :=
  "https://finnhub.io/api/v1/stock/metric?symbol=" ++ stock
  ++ "&metric=all&token=d44ckbhr01qt371ud7agd44ckbhr01qt371ud7b0".

Definition get_company_overview_CP2 (stock : string) : Net PyVal :=
  let url := metrics_url stock in
  data ← retrieve_from_endpoint url;
  failed ← lift (py_in "error" data);
  if failed : bool then mret data
  else
    latest_data ← lift (py_get_default data "metric" (PyDict []));
    mret (PyDict [("symbol", PyStr stock);
                  ("latest_metrics", latest_data)]).

End Config.

(** *** Session memory

    [get_session_history] builds a [StreamlitChatMessageHistory] on the key it
    is given. That class keeps the messages of a key in a list stored under
    the key in Streamlit's [session_state]: building a history on a key not
    yet in the state stores an empty list there, [messages] reads the list and
    [add_message] appends to it. Histories built on the same key share the
    list, so a history is represented by its key and the lists live in the
    state. *)

Record Message : Type := { type : string; content : string }.

#[export] Instance Message_eq_dec : EqDecision Message.
Proof. solve_decision. Defined.

Record StreamlitChatMessageHistory : Type := { key : string }.

Definition new_history (k : string) (session_state : gmap string (list Message))
    : StreamlitChatMessageHistory * gmap string (list Message) :=
  ({| key := k |},
   match session_state !! k with
   | Some _ => session_state
   | None => <[k := []]> session_state
   end).

Definition messages (history : StreamlitChatMessageHistory)
    (session_state : gmap string (list Message)) : list Message :=
  default [] (session_state !! key history).

Definition add_message (history : StreamlitChatMessageHistory) (message : Message)
    (session_state : gmap string (list Message)) : gmap string (list Message) :=
  <[key history := (messages history session_state ++ [message])%list]> session_state.

Definition get_session_history (session_id : string)
    (session_state : gmap string (list Message))
    : StreamlitChatMessageHistory * gmap string (list Message) :=
  new_history session_id session_state.

(** The two operations of the memory store: reading the history of a session
    and appending a message to it, both through [get_session_history]. *)
Definition get (session_id : string) (session_state : gmap string (list Message))
    : list Message :=
  let '(history, state) := get_session_history session_id session_state in
  messages history state.

Definition append (session_id : string) (message : Message)
    (session_state : gmap string (list Message)) : gmap string (list Message) :=
  let '(history, state) := get_session_history session_id session_state in
  add_message history message state.

Inductive Operation : Type :=
| Get (session_id : string)
| Append (session_id : string) (message : Message).

Definition step (session_state : gmap string (list Message)) (op : Operation)
    : gmap string (list Message) :=
  match op with
  | Get session_id => snd (get_session_history session_id session_state)
  | Append session_id message => append session_id message session_state
  end.

(** The state after a sequence of operations on a fresh [session_state]. *)
Definition run (ops : list Operation) : gmap string (list Message) :=
  fold_left step ops ∅.

End Tools.

(** * Vocabulary of the properties *)

Import Py PyFloatConv PyDyn Http Tools.

(** The request that asks the compliance service for the report of [symbol]
    with the key [api_key]. *)
Definition compliance_request (api_key symbol : string) : Request :=
  POST "https://api.zoya.finance/graphql"
       [("Authorization", api_key);
        ("Content-Type", "application/json");
        ("Accept", "application/json")]
       (PyDict [("query", PyStr query_compliance_report);
                ("variables", PyDict [("symbol", PyStr symbol)]);
                ("operationName", PyStr "getReport")]).

(** An argument that, when it is a string, is ASCII text. *)
Definition ascii_text (v : PyVal) : Prop :=
  forall s, v = PyStr s -> is_ascii s = true.

(** A string made of whitespace only. *)
Fixpoint all_space (s : string) : bool :=
  match s with
  | EmptyString => true
  | String c rest => isspace c && all_space rest
  end.

(** A status for which [raise_for_status] lets the response through. *)
Definition passes (response : Response) : Prop :=
  raise_for_status "" response = Ok tt.

(** The contents of ["data"] that do not lead to a report: a false value
    ([None], an empty mapping, ...), a mapping without ["basicCompliance"] or
    with a false value there, or a compliance mapping whose ["report"] is
    missing or null. *)
Inductive no_report : PyVal -> Prop :=
| no_data (data : PyVal) :
    truthy data = false -> no_report data
| lacks_compliance (entries : list (string * PyVal)) :
    lookup_key "basicCompliance" entries = None -> no_report (PyDict entries)
| empty_compliance (entries : list (string * PyVal)) (compliance : PyVal) :
    lookup_key "basicCompliance" entries = Some compliance ->
    truthy compliance = false -> no_report (PyDict entries)
| lacks_report (entries compliance : list (string * PyVal)) :
    lookup_key "basicCompliance" entries = Some (PyDict compliance) ->
    lookup_key "report" compliance = None -> no_report (PyDict entries)
| null_report (entries compliance : list (string * PyVal)) :
    lookup_key "basicCompliance" entries = Some (PyDict compliance) ->
    lookup_key "report" compliance = Some PyNone -> no_report (PyDict entries).

(** The failure kind of a result is read off the text under ["error"]: the
    kinds of the code are [InvalidInput], [NotFound] and [GraphQLError] as such
    and [HTTPError ...] and [Unexpected error: ...] as the start of a longer
    text. *)
Definition error_of (v : PyVal) : option string :=
  match v with
  | PyDict entries =>
      match lookup_key "error" entries with
      | Some (PyStr e) => Some e
      | _ => None
      end
  | _ => None
  end.

Definition has_kind (kind : string) (r : result PyVal PyExc) : Prop :=
  exists v e, r = Ok v /\ error_of v = Some e /\ String.prefix kind e = true.

(** The reading of the request-body rule in which an argument is provided
    when it is not [None]. *)
Definition keys_follow_presence (query : string) (variables operation_name : PyVal)
    : Prop :=
  let payload := graphql_payload query variables operation_name in
  has_key "query" payload = true
  /\ (has_key "variables" payload = true <-> variables <> PyNone)
  /\ (has_key "operationName" payload = true <-> operation_name <> PyNone).

(** A body that cannot be parsed, received with a 2xx status, is reported
    under a kind [ParseError] by both adapters. *)
Definition parse_failure_has_own_kind : Prop :=
  forall (finnhub_key zoya_key url query : string) (world : Transport)
         (response : Response) (message : string),
    200 <= status_code response < 300 ->
    json response = Raise message ->
    (forall req, world req = Ok response) ->
    has_kind "ParseError" (outcome (retrieve_from_endpoint finnhub_key url) world)
    /\ has_kind "ParseError"
         (outcome (retrieve_graphql_endpoint zoya_key url query PyNone PyNone None)
                  world).

(** The value a dictionary of headers holds for a name. *)
Fixpoint header (name : string) (headers : list (string * string)) : option string :=
  match headers with
  | [] => None
  | (name', value) :: rest =>
      if String.eqb name name' then Some value else header name rest
  end.

(** [None] or a mapping: what a GraphQL envelope holds under ["data"] and
    the compliance schema under ["basicCompliance"]. *)
Definition mapping_or_null (v : PyVal) : Prop := v = PyNone \/ is_dict v = true.

(** The messages a sequence of operations appends to a session, in order. *)
Fixpoint appended_to (session_id : string) (ops : list Operation) : list Message :=
  match ops with
  | [] => []
  | Get _ :: rest => appended_to session_id rest
  | Append other message :: rest =>
      if String.eqb session_id other
      then message :: appended_to session_id rest
      else appended_to session_id rest
  end.

(** * Properties *)

(** ** The purification calculator *)

Lemma coerce_inputs_ok (ratio cg dv : PyVal) (r c d : float) :
  py_float ratio = Ok r -> py_float cg = Ok c -> py_float dv = Ok d ->
  coerce_inputs ratio cg dv = Ok (r, c, d).
Proof. intros Hr Hc Hd. unfold coerce_inputs. by rewrite Hr, Hc, Hd. Qed.

Lemma coerce_inputs_raise (ratio cg dv : PyVal) :
  (exists e, py_float ratio = Raise e) \/
  (exists e, py_float cg = Raise e) \/
  (exists e, py_float dv = Raise e) ->
  exists e, coerce_inputs ratio cg dv = Raise e.
Proof.
  unfold coerce_inputs.
  intros [[e He] | [[e He] | [e He]]];
    repeat match goal with
           | |- context [py_float ?v] =>
               lazymatch goal with
               | H : py_float v = _ |- _ => rewrite H
               | _ => destruct (py_float v)
               end
           end; eauto.
Qed.

(** C2. [get_purification_amount], for arguments whose strings are ASCII
    text: when the three inputs coerce to floats [r], [cg] and [dv] the
    result is the [ok] mapping with the ratio, the two inputs and
    [r * (cg + dv)]; when a coercion fails it is the [InvalidInput] mapping;
    [(0.1, 1000, 200)] gives 120.0, [(0.2)] with the defaults gives 0.0 and
    [("abc", 1, 1)] gives [InvalidInput]; no request is sent and the result
    does not depend on the outside world. *)
#[warnings="-inexact-float"]
Theorem get_purification_amount_spec (ratio cg dv : PyVal) (world : Transport) :
  (forall r c d,
      ascii_text ratio -> ascii_text cg -> ascii_text dv ->
      py_float ratio = Ok r -> py_float cg = Ok c -> py_float dv = Ok d ->
      outcome (get_purification_amount ratio cg dv) world =
        Ok (PyDict [("status", PyStr "ok");
                    ("ratio_used", PyFloat r);
                    ("inputs", PyDict [("capital_gain", PyFloat c);
                                       ("dividend_income", PyFloat d)]);
                    ("amount", PyFloat (r * (c + d))%float)]))
  /\ (ascii_text ratio -> ascii_text cg -> ascii_text dv ->
      (exists e, py_float ratio = Raise e) \/
      (exists e, py_float cg = Raise e) \/
      (exists e, py_float dv = Raise e) ->
      outcome (get_purification_amount ratio cg dv) world =
        Ok (PyDict [("status", PyStr "error");
                    ("error", PyStr "InvalidInput");
                    ("detail", PyStr "All inputs must be numbers.")]))
  /\ outcome (get_purification_amount (PyFloat 0.1) (PyInt 1000) (PyInt 200)) world =
       Ok (PyDict [("status", PyStr "ok");
                   ("ratio_used", PyFloat 0.1);
                   ("inputs", PyDict [("capital_gain", PyFloat 1000);
                                      ("dividend_income", PyFloat 200)]);
                   ("amount", PyFloat 120)])
  /\ outcome (get_purification_amount (PyFloat 0.2) default_income default_income) world =
       Ok (PyDict [("status", PyStr "ok");
                   ("ratio_used", PyFloat 0.2);
                   ("inputs", PyDict [("capital_gain", PyFloat 0);
                                      ("dividend_income", PyFloat 0)]);
                   ("amount", PyFloat 0)])
  /\ outcome (get_purification_amount (PyStr "abc") (PyInt 1) (PyInt 1)) world =
       Ok (PyDict [("status", PyStr "error");
                   ("error", PyStr "InvalidInput");
                   ("detail", PyStr "All inputs must be numbers.")])
  /\ requests_sent (get_purification_amount ratio cg dv) world = []
  /\ (forall world' : Transport,
         get_purification_amount ratio cg dv world' =
         get_purification_amount ratio cg dv world).
Proof.
  split_and!; try reflexivity.
  - intros r c d _ _ _ Hr Hc Hd. unfold outcome, get_purification_amount.
    by rewrite (coerce_inputs_ok _ _ _ _ _ _ Hr Hc Hd).
  - intros _ _ _ Hfail. destruct (coerce_inputs_raise _ _ _ Hfail) as [e He].
    unfold outcome, get_purification_amount. by rewrite He.
  - unfold get_purification_amount, requests_sent.
    by destruct (coerce_inputs ratio cg dv) as [[[r c] d] | e].
  - intros world'. unfold get_purification_amount.
    by destruct (coerce_inputs ratio cg dv) as [[[r c] d] | e].
Qed.

#[warnings="-inexact-float"]
Lemma get_purification_amount_spec_witness :
  outcome (get_purification_amount (PyStr " 2.5e-1 ") (PyInt 1000) (PyBool true))
          (fun _ => Raise (OtherError "ConnectionError" "offline")) =
    Ok (PyDict [("status", PyStr "ok");
                ("ratio_used", PyFloat 0.25);
                ("inputs", PyDict [("capital_gain", PyFloat 1000);
                                   ("dividend_income", PyFloat 1)]);
                ("amount", PyFloat 250.25)])
  /\ outcome (get_purification_amount (PyFloat 0.5) PyNone (PyInt 3))
             (fun _ => Raise (OtherError "ConnectionError" "offline")) =
       Ok (PyDict [("status", PyStr "error");
                   ("error", PyStr "InvalidInput");
                   ("detail", PyStr "All inputs must be numbers.")]).
Proof.
  split.
  - apply (proj1 (get_purification_amount_spec
                    (PyStr " 2.5e-1 ") (PyInt 1000) (PyBool true) _));
      try (intros s [=]; subst; reflexivity); vm_compute; reflexivity.
  - apply (proj1 (proj2 (get_purification_amount_spec
                           (PyFloat 0.5) PyNone (PyInt 3) _)));
      try (intros s [=]).
    right. left. eexists. vm_compute. reflexivity.
Defined.

(** ** Running the adapters *)

Ltac run_net :=
  unfold outcome, requests_sent, mbind, mret, net_bind, net_ret, try_except,
    lift, requests_get, requests_post, send;
  cbn beta iota.

Lemma raise_for_status_url (url url' : string) (response : Response) :
  raise_for_status url response = Ok tt -> raise_for_status url' response = Ok tt.
Proof.
  unfold raise_for_status. by repeat case_match.
Qed.

(** The GraphQL adapter sends exactly one request whatever comes back. *)
Lemma retrieve_graphql_endpoint_sent (api_key endpoint query : string)
    (variables operation_name : PyVal) (extra : option (list (string * string)))
    (world : Transport) :
  requests_sent (retrieve_graphql_endpoint api_key endpoint query variables
                   operation_name extra) world =
    [POST endpoint (graphql_headers api_key extra)
          (PyDict (graphql_payload query variables operation_name))].
Proof.
  unfold retrieve_graphql_endpoint. run_net.
  destruct (world _) as [response | e]; cbn.
  - destruct (raise_for_status endpoint response) as [[] | e]; cbn.
    + destruct (response_json response) as [body | e]; cbn.
      * destruct body as [| | | | | | entries]; try reflexivity.
        by destruct (truthy (dict_get entries "errors")).
      * by destruct e.
    + by destruct e.
  - by destruct e.
Qed.

(** Nor does it ever let an exception out: its result is a mapping. *)
Lemma retrieve_graphql_endpoint_returns (api_key endpoint query : string)
    (variables operation_name : PyVal) (extra : option (list (string * string)))
    (world : Transport) :
  exists entries,
    outcome (retrieve_graphql_endpoint api_key endpoint query variables
               operation_name extra) world = Ok (PyDict entries).
Proof.
  unfold retrieve_graphql_endpoint. run_net.
  destruct (world _) as [response | e]; cbn.
  - destruct (raise_for_status endpoint response) as [[] | e]; cbn.
    + destruct (response_json response) as [body | e]; cbn.
      * destruct body as [| | | | | | entries]; cbn; eauto.
        destruct (truthy (dict_get entries "errors")); cbn; eauto.
      * destruct e; cbn; eauto.
    + destruct e; cbn; eauto.
  - destruct e; cbn; eauto.
Qed.

Lemma retrieve_from_endpoint_sent (api_key url : string) (world : Transport) :
  requests_sent (retrieve_from_endpoint api_key url) world =
    [GET url [("X-Finnhub-Token", api_key)]].
Proof.
  unfold retrieve_from_endpoint. run_net.
  destruct (world _) as [response | e]; cbn.
  - destruct (raise_for_status url response) as [[] | e]; cbn.
    + destruct (response_json response) as [body | e]; cbn; [done | by destruct e].
    + by destruct e.
  - by destruct e.
Qed.

(** ** Trimming and letter case *)

Lemma lstrip_all_space (s : string) : all_space s = true -> lstrip s = "".
Proof.
  induction s as [| c s IH]; [done |]. cbn [all_space lstrip].
  intros [Hc Hs]%andb_prop. rewrite Hc. by apply IH.
Qed.

Lemma rstrip_all_space (s : string) : all_space s = true -> rstrip s = "".
Proof.
  induction s as [| c s IH]; [done |]. cbn [all_space rstrip].
  intros [Hc Hs]%andb_prop. by rewrite (IH Hs), Hc.
Qed.

Lemma lstrip_app_left (pad s : string) :
  all_space pad = true -> lstrip (pad ++ s) = lstrip s.
Proof.
  induction pad as [| c pad IH]; [done |].
  change (String c pad ++ s) with (String c (pad ++ s)). cbn [all_space lstrip].
  intros [Hc Hpad]%andb_prop. rewrite Hc. by apply IH.
Qed.

Lemma rstrip_app_right (s pad : string) :
  all_space pad = true -> rstrip (s ++ pad) = rstrip s.
Proof.
  intros Hpad. induction s as [| c s IH].
  - by apply rstrip_all_space.
  - change (String c s ++ pad) with (String c (s ++ pad)). cbn [rstrip].
    by rewrite IH.
Qed.

Lemma lstrip_app_right (s pad : string) :
  all_space pad = true ->
  lstrip (s ++ pad) = match lstrip s with
                      | EmptyString => EmptyString
                      | kept => kept ++ pad
                      end.
Proof.
  intros Hpad. induction s as [| c s IH].
  - by apply lstrip_all_space.
  - change (String c s ++ pad) with (String c (s ++ pad)). cbn [lstrip].
    by destruct (isspace c).
Qed.

(** Whitespace around a string does not survive [strip]. *)
Lemma strip_padding (left s right : string) :
  all_space left = true -> all_space right = true ->
  strip (left ++ s ++ right) = strip s.
Proof.
  intros Hleft Hright. unfold strip.
  rewrite (lstrip_app_left _ _ Hleft), (lstrip_app_right _ _ Hright).
  destruct (lstrip s) as [| c kept] eqn:Hs; [done |].
  by rewrite rstrip_app_right.
Qed.

Lemma isspace_upper_char (c : ascii) : isspace (upper_char c) = isspace c.
Proof. by destruct c as [[] [] [] [] [] [] [] []]. Qed.

Lemma upper_lower_char (c : ascii) : upper_char (lower_char c) = upper_char c.
Proof. by destruct c as [[] [] [] [] [] [] [] []]. Qed.

Lemma lstrip_upper (s : string) : lstrip (upper s) = upper (lstrip s).
Proof.
  unfold upper. induction s as [| c s IH]; [done |]. cbn [lstrip map_chars].
  rewrite isspace_upper_char. by destruct (isspace c).
Qed.

Lemma rstrip_upper (s : string) : rstrip (upper s) = upper (rstrip s).
Proof.
  unfold upper. induction s as [| c s IH]; [done |]. cbn [rstrip map_chars].
  rewrite IH. destruct (rstrip s) as [| c' kept]; cbn [map_chars]; [| done].
  rewrite isspace_upper_char. by destruct (isspace c).
Qed.

Lemma strip_upper (s : string) : upper (strip s) = strip (upper s).
Proof. unfold strip. by rewrite lstrip_upper, rstrip_upper. Qed.

Lemma upper_lower (s : string) : upper (lower s) = upper s.
Proof.
  unfold upper, lower. induction s as [| c s IH]; [done |]. cbn [map_chars].
  by rewrite upper_lower_char, IH.
Qed.

(** Strings with the same letters up to case are normalized alike. *)
Lemma normalize_case (s s' : string) :
  lower s = lower s' -> upper (strip s) = upper (strip s').
Proof.
  intros Hsame. rewrite !strip_upper.
  by rewrite <- (upper_lower s), <- (upper_lower s'), Hsame.
Qed.

(** ** The compliance report tool *)

Lemma truthy_strip (s : string) : strip s <> "" -> truthy (PyStr (strip s)) = true.
Proof.
  intros Hs. cbn. destruct (String.eqb_spec (strip s) ""); [contradiction | done].
Qed.

(** What the tool returns, given what the adapter returned. *)
Lemma get_compliance_report_outcome (api_key s : string) (world : Transport)
    (entries : list (string * PyVal)) :
  strip s <> "" ->
  outcome (retrieve_graphql_endpoint api_key compliance_endpoint
             query_compliance_report
             (PyDict [("symbol", PyStr (upper (strip s)))])
             (PyStr "getReport") None) world = Ok (PyDict entries) ->
  outcome (get_compliance_report api_key (PyStr s)) world =
    if has_key "data" entries then
      match report_of (dict_get entries "data") with
      | Ok PyNone => Ok (not_found (upper (strip s)))
      | Ok _ => Ok (PyDict entries)
      | Raise e => Raise e
      end
    else Ok (PyDict entries).
Proof.
  intros Hs Hadapter. unfold get_compliance_report.
  rewrite (truthy_strip _ Hs). revert Hadapter. run_net.
  destruct (retrieve_graphql_endpoint _ _ _ _ _ _ world) as [[v | e] sent];
    cbn; intros [= ->].
  destruct (has_key "data" entries); [| done].
  destruct (report_of (dict_get entries "data")) as [report | e]; [| done].
  by destruct report.
Qed.

(** C3. For an ASCII symbol that is not empty once trimmed,
    [get_compliance_report] sends one request: the compliance query with the single variable
    [symbol] set to the trimmed, upper-cased input. Whitespace around the
    symbol and the case of its letters do not change that variable; so
    ["aapl"], [" AAPL "] and ["Aapl"] all send the variable ["AAPL"]. *)
Theorem get_compliance_report_request (api_key symbol : string) (world : Transport) :
  is_ascii symbol = true ->
  strip symbol <> "" ->
  requests_sent (get_compliance_report api_key (PyStr symbol)) world =
    [POST "https://api.zoya.finance/graphql"
          [("Authorization", api_key);
           ("Content-Type", "application/json");
           ("Accept", "application/json")]
          (PyDict [("query", PyStr query_compliance_report);
                   ("variables", PyDict [("symbol", PyStr (upper (strip symbol)))]);
                   ("operationName", PyStr "getReport")])]
  /\ (forall left right,
         all_space left = true -> all_space right = true ->
         upper (strip (left ++ symbol ++ right)) = upper (strip symbol))
  /\ (forall other,
         is_ascii other = true -> lower other = lower symbol ->
         upper (strip other) = upper (strip symbol))
  /\ upper (strip "aapl") = "AAPL"
  /\ upper (strip " AAPL ") = "AAPL"
  /\ upper (strip "Aapl") = "AAPL".
Proof.
  intros _ Hs. split_and!; try reflexivity;
    [| intros left right Hleft Hright; by rewrite strip_padding
     | intros other _ Hsame; by apply normalize_case].
  unfold get_compliance_report. rewrite (truthy_strip _ Hs).
  pose proof (retrieve_graphql_endpoint_sent api_key compliance_endpoint
                query_compliance_report
                (PyDict [("symbol", PyStr (upper (strip symbol)))])
                (PyStr "getReport") None world) as Hsent.
  revert Hsent. run_net.
  destruct (retrieve_graphql_endpoint _ _ _ _ _ _ world) as [[v | e] sent];
    cbn; intros ->; [| done].
  destruct v as [| | | | | | entries]; try done.
  destruct (has_key "data" entries); [| done].
  destruct (report_of (dict_get entries "data")) as [report | e]; [| done].
  by destruct report.
Qed.

Lemma get_compliance_report_request_witness :
  let world : Transport := fun _ => Raise (OtherError "ConnectionError" "offline") in
  requests_sent (get_compliance_report "zoya-key" (PyStr "aapl")) world =
    [compliance_request "zoya-key" "AAPL"]
  /\ requests_sent (get_compliance_report "zoya-key" (PyStr " AAPL ")) world =
       [compliance_request "zoya-key" "AAPL"]
  /\ requests_sent (get_compliance_report "zoya-key" (PyStr "Aapl")) world =
       [compliance_request "zoya-key" "AAPL"].
Proof.
  intros world. split_and!.
  - apply (proj1 (get_compliance_report_request "zoya-key" "aapl" world
                    eq_refl ltac:(vm_compute; discriminate))).
  - apply (proj1 (get_compliance_report_request "zoya-key" " AAPL " world
                    eq_refl ltac:(vm_compute; discriminate))).
  - apply (proj1 (get_compliance_report_request "zoya-key" "Aapl" world
                    eq_refl ltac:(vm_compute; discriminate))).
Defined.

(** C6. A symbol that is not a string, or is empty once trimmed, gets the
    [InvalidInput] mapping and no request is sent. *)
Theorem get_compliance_report_invalid_input (api_key : string) (symbol : PyVal)
    (world : Transport) :
  (forall s, symbol = PyStr s -> strip s = "") ->
  outcome (get_compliance_report api_key symbol) world =
    Ok (PyDict [("error", PyStr "InvalidInput");
                ("detail", PyStr "symbol must be a non-empty string.")])
  /\ requests_sent (get_compliance_report api_key symbol) world = [].
Proof.
  intros Hsym. destruct symbol as [| | | | s | |]; try done.
  unfold get_compliance_report. by rewrite (Hsym s eq_refl).
Qed.

Lemma get_compliance_report_invalid_input_witness :
  let world : Transport :=
    fun _ => Ok {| status_code := 200; reason := "OK"; text := "{}";
                   json := Ok (PyDict []) |} in
  (outcome (get_compliance_report "zoya-key" (PyStr "")) world = Ok invalid_symbol
   /\ requests_sent (get_compliance_report "zoya-key" (PyStr "")) world = [])
  /\ (outcome (get_compliance_report "zoya-key" (PyStr "   ")) world = Ok invalid_symbol
      /\ requests_sent (get_compliance_report "zoya-key" (PyStr "   ")) world = [])
  /\ (outcome (get_compliance_report "zoya-key" (PyInt 7)) world = Ok invalid_symbol
      /\ requests_sent (get_compliance_report "zoya-key" (PyInt 7)) world = [])
  /\ (outcome (get_compliance_report "zoya-key" PyNone) world = Ok invalid_symbol
      /\ requests_sent (get_compliance_report "zoya-key" PyNone) world = []).
Proof.
  intros world. split; [| split; [| split]].
  - apply (get_compliance_report_invalid_input "zoya-key" (PyStr "") world).
    intros s [= <-]. reflexivity.
  - apply (get_compliance_report_invalid_input "zoya-key" (PyStr "   ") world).
    intros s [= <-]. reflexivity.
  - apply (get_compliance_report_invalid_input "zoya-key" (PyInt 7) world).
    intros s [=].
  - apply (get_compliance_report_invalid_input "zoya-key" PyNone world).
    intros s [=].
Defined.

(** [report_of] yields [None] exactly on the contents described by
    [no_report]. *)
Lemma report_of_none (data : PyVal) : report_of data = Ok PyNone <-> no_report data.
Proof.
  unfold report_of, py_or. split.
  - destruct (truthy data) eqn:Hdata; [| intros _; by apply no_data].
    destruct data as [| | | | | | entries]; try discriminate.
    cbn. unfold dict_get.
    destruct (lookup_key "basicCompliance" entries) as [compliance |] eqn:Hc;
      [| intros _; by apply lacks_compliance].
    destruct (truthy compliance) eqn:Htruthy;
      [| intros _; by eapply empty_compliance].
    destruct compliance as [| | | | | | centries]; try discriminate.
    cbn. unfold dict_get.
    destruct (lookup_key "report" centries) as [report |] eqn:Hr;
      [| intros _; by eapply lacks_report].
    intros [= ->]. by eapply null_report.
  - intros [data' Hfalse | entries Hc | entries c Hc Hfalse
           | entries c Hc Hr | entries c Hc Hr].
    + by rewrite Hfalse.
    + destruct (truthy (PyDict entries)); cbn; unfold dict_get;
        [by rewrite Hc | done].
    + destruct (truthy (PyDict entries)); cbn; unfold dict_get;
        [by rewrite Hc, Hfalse | done].
    + destruct (truthy (PyDict entries)) eqn:Hne; cbn; unfold dict_get;
        [| done].
      rewrite Hc. destruct (truthy (PyDict c)); cbn; unfold dict_get;
        [by rewrite Hr | done].
    + destruct (truthy (PyDict entries)) eqn:Hne; cbn; unfold dict_get;
        [| done].
      rewrite Hc. destruct (truthy (PyDict c)); cbn; unfold dict_get;
        [by rewrite Hr | done].
Qed.

(** The adapter's answer to a response that passes the status check and
    carries a parsed body without GraphQL errors. *)
Lemma retrieve_graphql_endpoint_data (api_key endpoint query : string)
    (variables operation_name : PyVal) (extra : option (list (string * string)))
    (world : Transport) (response : Response) (entries : list (string * PyVal)) :
  world (POST endpoint (graphql_headers api_key extra)
           (PyDict (graphql_payload query variables operation_name))) = Ok response ->
  passes response ->
  json response = Ok (PyDict entries) ->
  truthy (dict_get entries "errors") = false ->
  outcome (retrieve_graphql_endpoint api_key endpoint query variables
             operation_name extra) world =
    Ok (PyDict [("data", dict_get entries "data")]).
Proof.
  intros Hworld Hpass Hjson Herrors.
  unfold retrieve_graphql_endpoint. run_net. rewrite Hworld. cbn.
  rewrite (raise_for_status_url _ endpoint _ Hpass). cbn.
  unfold response_json. rewrite Hjson. cbn. by rewrite Herrors.
Qed.

(** C4. When the compliance service answers 200 with a null report, the tool
    returns [NotFound] and its detail names the trimmed, upper-cased
    symbol; the symbol is ASCII text, not empty once trimmed. *)
Theorem null_report_is_not_found (api_key symbol : string) (world : Transport)
    (response : Response) :
  is_ascii symbol = true ->
  strip symbol <> "" ->
  world (compliance_request api_key (upper (strip symbol))) = Ok response ->
  status_code response = 200 ->
  json response =
    Ok (PyDict [("data", PyDict [("basicCompliance",
                                  PyDict [("report", PyNone)])])]) ->
  outcome (get_compliance_report api_key (PyStr symbol)) world =
    Ok (PyDict [("error", PyStr "NotFound");
                ("detail", PyStr ("No compliance report found for symbol '"
                                  ++ upper (strip symbol) ++ "'."))]).
Proof.
  intros _ Hs Hworld Hstatus Hjson.
  rewrite (get_compliance_report_outcome api_key symbol world
             [("data", PyDict [("basicCompliance", PyDict [("report", PyNone)])])] Hs).
  - reflexivity.
  - apply (retrieve_graphql_endpoint_data api_key compliance_endpoint
             query_compliance_report
             (PyDict [("symbol", PyStr (upper (strip symbol)))])
             (PyStr "getReport") None world response
             [("data", PyDict [("basicCompliance", PyDict [("report", PyNone)])])]
             Hworld);
      [| exact Hjson | reflexivity].
    unfold passes, raise_for_status. by rewrite Hstatus.
Qed.

Lemma null_report_is_not_found_witness :
  outcome (get_compliance_report "zoya-key" (PyStr " tsla "))
          (fun _ => Ok {| status_code := 200; reason := "OK";
                          text := "{}";
                          json := Ok (PyDict [("data",
                                     PyDict [("basicCompliance",
                                              PyDict [("report", PyNone)])])]) |}) =
    Ok (PyDict [("error", PyStr "NotFound");
                ("detail", PyStr "No compliance report found for symbol 'TSLA'.")]).
Proof.
  apply (null_report_is_not_found "zoya-key" " tsla " _
           {| status_code := 200; reason := "OK"; text := "{}";
              json := Ok (PyDict [("data",
                         PyDict [("basicCompliance",
                                  PyDict [("report", PyNone)])])]) |}).
  - reflexivity.
  - vm_compute. discriminate.
  - reflexivity.
  - reflexivity.
  - reflexivity.
Defined.

(** When the adapter's result has a ["data"] key whose content is one of
    those [no_report] lists -- [None] and a mapping without
    ["basicCompliance"] included -- the tool returns [NotFound] naming the
    normalized symbol. *)
Lemma missing_report_is_not_found (api_key symbol : string) (world : Transport)
    (entries : list (string * PyVal)) (data : PyVal) :
  is_ascii symbol = true ->
  strip symbol <> "" ->
  outcome (retrieve_graphql_endpoint api_key compliance_endpoint
             query_compliance_report
             (PyDict [("symbol", PyStr (upper (strip symbol)))])
             (PyStr "getReport") None) world = Ok (PyDict entries) ->
  lookup_key "data" entries = Some data ->
  no_report data ->
  outcome (get_compliance_report api_key (PyStr symbol)) world =
    Ok (PyDict [("error", PyStr "NotFound");
                ("detail", PyStr ("No compliance report found for symbol '"
                                  ++ upper (strip symbol) ++ "'."))]).
Proof.
  intros _ Hs Hadapter Hdata Hnone.
  rewrite (get_compliance_report_outcome api_key symbol world entries Hs Hadapter).
  unfold has_key, dict_get. rewrite Hdata.
  apply report_of_none in Hnone. by rewrite Hnone.
Qed.

Lemma missing_report_is_not_found_examples :
  let answer (body : PyVal) : Transport :=
    fun _ => Ok {| status_code := 200; reason := "OK"; text := "";
                   json := Ok body |} in
  let expected : result PyVal PyExc :=
    Ok (PyDict [("error", PyStr "NotFound");
                ("detail", PyStr "No compliance report found for symbol 'MSFT'.")]) in
  outcome (get_compliance_report "zoya-key" (PyStr "msft"))
          (answer (PyDict [("data", PyNone)])) = expected
  /\ outcome (get_compliance_report "zoya-key" (PyStr "msft"))
             (answer (PyDict [("data", PyDict [("other", PyInt 1)])])) = expected
  /\ outcome (get_compliance_report "zoya-key" (PyStr "msft"))
             (answer (PyList [])) = expected.
Proof.
  intros answer expected. split_and!.
  - apply (missing_report_is_not_found "zoya-key" "msft" _ [("data", PyNone)] PyNone);
      [reflexivity | vm_compute; discriminate | reflexivity | reflexivity |].
    apply no_data. reflexivity.
  - apply (missing_report_is_not_found "zoya-key" "msft" _
             [("data", PyDict [("other", PyInt 1)])] (PyDict [("other", PyInt 1)]));
      [reflexivity | vm_compute; discriminate | reflexivity | reflexivity |].
    apply lacks_compliance. reflexivity.
  - apply (missing_report_is_not_found "zoya-key" "msft" _ [("data", PyNone)] PyNone);
      [reflexivity | vm_compute; discriminate | reflexivity | reflexivity |].
    apply no_data. reflexivity.
Defined.

(** C10, where the code departs from it. A ["data"] that is true in a
    condition without being a mapping does not lead to a report, yet the
    tool does not return [NotFound]: the [get] applied to it raises
    [AttributeError]. The same happens one level down, for such a value
    under ["basicCompliance"]. *)
Theorem missing_report_can_raise :
  let answer (body : PyVal) : Transport :=
    fun _ => Ok {| status_code := 200; reason := "OK"; text := "";
                   json := Ok body |} in
  outcome (get_compliance_report "zoya-key" (PyStr "AAPL"))
          (answer (PyDict [("data", PyList [PyInt 1])])) =
    Raise (OtherError "AttributeError" "'list' object has no attribute 'get'")
  /\ outcome (get_compliance_report "zoya-key" (PyStr "AAPL"))
             (answer (PyDict [("data", PyStr "none")])) =
       Raise (OtherError "AttributeError" "'str' object has no attribute 'get'")
  /\ outcome (get_compliance_report "zoya-key" (PyStr "AAPL"))
             (answer (PyDict [("data", PyDict [("basicCompliance", PyInt 7)])])) =
       Raise (OtherError "AttributeError" "'int' object has no attribute 'get'").
Proof. intros answer. split_and!; reflexivity. Qed.

(** ** The request body of the GraphQL adapter *)

(** An empty operation name is passed, yet the key is left out. *)
Lemma empty_operation_name_is_omitted :
  ~ keys_follow_presence "query { ping }" PyNone (PyStr "").
Proof.
  intros (_ & _ & Hop). destruct Hop as [_ Hop].
  by specialize (Hop ltac:(discriminate)).
Qed.

(** C5, amended. The adapter posts one request whose body holds ["query"];
    ["variables"] is in it exactly when the argument is not [None], and
    ["operationName"] exactly when the operation name is true in a condition
    (neither [None] nor the empty string); a key that is left out is absent,
    not null. *)
Theorem graphql_request_body (api_key endpoint query : string)
    (variables operation_name : PyVal) (extra : option (list (string * string)))
    (world : Transport) :
  exists headers payload,
    requests_sent (retrieve_graphql_endpoint api_key endpoint query variables
                     operation_name extra) world =
      [POST endpoint headers (PyDict payload)]
    /\ lookup_key "query" payload = Some (PyStr query)
    /\ lookup_key "variables" payload =
         match variables with PyNone => None | _ => Some variables end
    /\ lookup_key "operationName" payload =
         (if truthy operation_name then Some operation_name else None)
    /\ truthy PyNone = false
    /\ (forall name, truthy (PyStr name) = negb (String.eqb name "")).
Proof.
  exists (graphql_headers api_key extra),
         (graphql_payload query variables operation_name).
  split; [apply retrieve_graphql_endpoint_sent |].
  unfold graphql_payload. split_and!.
  - by destruct variables, (truthy operation_name).
  - by destruct variables, (truthy operation_name).
  - by destruct variables, (truthy operation_name).
  - done.
  - done.
Qed.

(** ** Bodies that cannot be parsed *)

(** The two adapters on a response whose body does not parse. *)
Lemma retrieve_from_endpoint_unparsed (api_key url : string) (world : Transport)
    (response : Response) (message : string) :
  world (GET url [("X-Finnhub-Token", api_key)]) = Ok response ->
  passes response ->
  json response = Raise message ->
  outcome (retrieve_from_endpoint api_key url) world =
    Ok (PyDict [("error", PyStr ("Unexpected error: JSONDecodeError - " ++ message));
                ("url", PyStr url)]).
Proof.
  intros Hworld Hpass Hjson. unfold retrieve_from_endpoint. run_net.
  rewrite Hworld. cbn. rewrite (raise_for_status_url _ url _ Hpass). cbn.
  unfold response_json. by rewrite Hjson.
Qed.

Lemma retrieve_graphql_endpoint_unparsed (api_key endpoint query : string)
    (variables operation_name : PyVal) (extra : option (list (string * string)))
    (world : Transport) (response : Response) (message : string) :
  world (POST endpoint (graphql_headers api_key extra)
           (PyDict (graphql_payload query variables operation_name))) = Ok response ->
  passes response ->
  json response = Raise message ->
  outcome (retrieve_graphql_endpoint api_key endpoint query variables
             operation_name extra) world =
    Ok (PyDict [("error", PyStr ("Unexpected error: JSONDecodeError - " ++ message));
                ("url", PyStr endpoint);
                ("detail", PyStr "Failed to parse JSON response.")]).
Proof.
  intros Hworld Hpass Hjson. unfold retrieve_graphql_endpoint. run_net.
  rewrite Hworld. cbn. rewrite (raise_for_status_url _ endpoint _ Hpass). cbn.
  unfold response_json. by rewrite Hjson.
Qed.

Lemma success_status_passes (response : Response) :
  200 <= status_code response < 300 -> passes response.
Proof.
  intros Hstatus. unfold passes, raise_for_status.
  destruct (Z.leb_spec 400 (status_code response)); [lia |].
  destruct (Z.leb_spec 500 (status_code response)); [lia | done].
Qed.

(** Neither adapter has a [ParseError] kind: the text starts with
    [Unexpected error]. *)
Lemma parse_failure_has_no_own_kind : ~ parse_failure_has_own_kind.
Proof.
  intros Hclaim.
  destruct (Hclaim "finnhub-key" "zoya-key" "https://example.org/x" "query { ping }"
              (fun _ => Ok {| status_code := 200; reason := "OK";
                              text := "<html>"; json := Raise "Expecting value" |})
              {| status_code := 200; reason := "OK";
                 text := "<html>"; json := Raise "Expecting value" |}
              "Expecting value" ltac:(cbn; lia) eq_refl ltac:(done))
    as [(v & e & Hv & He & Hprefix) _].
  vm_compute in Hv. injection Hv as <-. vm_compute in He. injection He as <-.
  vm_compute in Hprefix. discriminate.
Qed.

(** C7, amended. When the status is 2xx and the body does not parse, each
    adapter returns a failure mapping whose ["error"] text is
    [Unexpected error: JSONDecodeError - <message>], the label of the
    catch-all, with the URL; the GraphQL adapter adds the detail
    [Failed to parse JSON response.]. No [ParseError] kind is produced. *)
Theorem parse_failure_is_unexpected_error (finnhub_key zoya_key url endpoint query : string)
    (variables operation_name : PyVal) (extra : option (list (string * string)))
    (world : Transport) (response : Response) (message : string) :
  200 <= status_code response < 300 ->
  json response = Raise message ->
  (world (GET url [("X-Finnhub-Token", finnhub_key)]) = Ok response ->
   outcome (retrieve_from_endpoint finnhub_key url) world =
     Ok (PyDict [("error", PyStr ("Unexpected error: JSONDecodeError - " ++ message));
                 ("url", PyStr url)])
   /\ has_kind "Unexpected error"
        (outcome (retrieve_from_endpoint finnhub_key url) world)
   /\ ~ has_kind "ParseError"
          (outcome (retrieve_from_endpoint finnhub_key url) world))
  /\ (world (POST endpoint (graphql_headers zoya_key extra)
               (PyDict (graphql_payload query variables operation_name)))
        = Ok response ->
      outcome (retrieve_graphql_endpoint zoya_key endpoint query variables
                 operation_name extra) world =
        Ok (PyDict [("error", PyStr ("Unexpected error: JSONDecodeError - " ++ message));
                    ("url", PyStr endpoint);
                    ("detail", PyStr "Failed to parse JSON response.")])
      /\ has_kind "Unexpected error"
           (outcome (retrieve_graphql_endpoint zoya_key endpoint query variables
                       operation_name extra) world)
      /\ ~ has_kind "ParseError"
             (outcome (retrieve_graphql_endpoint zoya_key endpoint query variables
                         operation_name extra) world)).
Proof.
  intros Hstatus Hjson. apply success_status_passes in Hstatus. split.
  - intros Hworld.
    rewrite (retrieve_from_endpoint_unparsed _ _ _ _ _ Hworld Hstatus Hjson).
    split_and!; [done | by eexists _, _ |].
    intros (v & e & [= <-] & [= <-] & Hprefix). discriminate.
  - intros Hworld.
    rewrite (retrieve_graphql_endpoint_unparsed _ _ _ _ _ _ _ _ _
               Hworld Hstatus Hjson).
    split_and!; [done | by eexists _, _ |].
    intros (v & e & [= <-] & [= <-] & Hprefix). discriminate.
Qed.

Lemma parse_failure_is_unexpected_error_witness :
  let response := {| status_code := 200; reason := "OK"; text := "<html>";
                     json := Raise "Expecting value: line 1 column 1 (char 0)" |} in
  let world : Transport := fun _ => Ok response in
  outcome (retrieve_from_endpoint "finnhub-key" "https://finnhub.io/api/v1/quote") world =
    Ok (PyDict [("error", PyStr "Unexpected error: JSONDecodeError - Expecting value: line 1 column 1 (char 0)");
                ("url", PyStr "https://finnhub.io/api/v1/quote")])
  /\ outcome (retrieve_graphql_endpoint "zoya-key" "https://api.zoya.finance/graphql"
                "query { ping }" PyNone PyNone None) world =
       Ok (PyDict [("error", PyStr "Unexpected error: JSONDecodeError - Expecting value: line 1 column 1 (char 0)");
                   ("url", PyStr "https://api.zoya.finance/graphql");
                   ("detail", PyStr "Failed to parse JSON response.")]).
Proof.
  intros response world.
  pose proof (parse_failure_is_unexpected_error
                "finnhub-key" "zoya-key" "https://finnhub.io/api/v1/quote"
                "https://api.zoya.finance/graphql" "query { ping }"
                PyNone PyNone None world response
                "Expecting value: line 1 column 1 (char 0)"
                ltac:(simpl; lia) eq_refl) as [Hrest Hgraphql].
  split.
  - exact (proj1 (Hrest eq_refl)).
  - exact (proj1 (Hgraphql eq_refl)).
Defined.

(** ** The company metrics tool *)

(** C8, as the code has it. For every stock the tool sends one GET to the
    metrics endpoint with [symbol] set to the stock and [metric=all]; the
    [token] parameter is a literal written in the source, and the configured
    key travels in the [X-Finnhub-Token] header instead. *)
Theorem get_company_overview_request (api_key stock : string) (world : Transport) :
  requests_sent (get_company_overview_CP2 api_key stock) world =
    [GET ("https://finnhub.io/api/v1/stock/metric?symbol=" ++ stock
          ++ "&metric=all&token=d44ckbhr01qt371ud7agd44ckbhr01qt371ud7b0")
         [("X-Finnhub-Token", api_key)]].
Proof.
  unfold get_company_overview_CP2.
  pose proof (retrieve_from_endpoint_sent api_key (metrics_url stock) world) as Hsent.
  revert Hsent. run_net.
  destruct (retrieve_from_endpoint api_key (metrics_url stock) world)
    as [[data | e] sent]; cbn; intros ->; [| done].
  destruct (py_in "error" data) as [[] | e]; cbn; try done.
  by destruct (py_get_default data "metric" (PyDict [])).
Qed.

(** With the key ["configured-key"] the token sent is still the literal. *)
Lemma get_company_overview_token_not_configured :
  requests_sent (get_company_overview_CP2 "configured-key" "AAPL")
                (fun _ => Raise (OtherError "ConnectionError" "offline")) =
    [GET "https://finnhub.io/api/v1/stock/metric?symbol=AAPL&metric=all&token=d44ckbhr01qt371ud7agd44ckbhr01qt371ud7b0"
         [("X-Finnhub-Token", "configured-key")]].
Proof. reflexivity. Qed.

(** ** Results at the tool boundary *)

(** The calculator always returns a mapping. *)
Lemma get_purification_amount_returns (ratio cg dv : PyVal) (world : Transport) :
  exists entries,
    outcome (get_purification_amount ratio cg dv) world = Ok (PyDict entries).
Proof.
  unfold get_purification_amount, outcome.
  destruct (coerce_inputs ratio cg dv) as [[[r c] d] | e]; cbn; eauto.
Qed.

(** The REST adapter never raises, but what it returns on success is the
    parsed body, of whatever type. *)
Lemma retrieve_from_endpoint_returns (api_key url : string) (world : Transport) :
  exists v, outcome (retrieve_from_endpoint api_key url) world = Ok v.
Proof.
  unfold retrieve_from_endpoint. run_net.
  destruct (world _) as [response | e]; cbn.
  - destruct (raise_for_status url response) as [[] | e]; cbn.
    + destruct (response_json response) as [body | e]; cbn; eauto.
      destruct e; cbn; eauto.
    + destruct e; cbn; eauto.
  - destruct e; cbn; eauto.
Qed.

(** When the adapter hands back a mapping, so does the metrics tool. *)
Lemma get_company_overview_returns (api_key stock : string) (world : Transport)
    (entries : list (string * PyVal)) :
  outcome (retrieve_from_endpoint api_key (metrics_url stock)) world =
    Ok (PyDict entries) ->
  exists entries',
    outcome (get_company_overview_CP2 api_key stock) world = Ok (PyDict entries').
Proof.
  unfold get_company_overview_CP2. run_net.
  destruct (retrieve_from_endpoint api_key (metrics_url stock) world)
    as [[data | e] sent]; cbn; intros [= ->]. cbn.
  destruct (has_key "error" entries); cbn; eauto.
Qed.

(** C1, where the code departs from it. A parsed body that is not a mapping
    makes [get_company_overview_CP2] raise ([AttributeError] on a list,
    [TypeError] on [null]) or return a value that is not a mapping (a string
    containing [error]); a ["data"] that is a non-empty list makes
    [get_compliance_report] raise too. *)
Theorem tools_let_exceptions_out :
  let answer (body : PyVal) : Transport :=
    fun _ => Ok {| status_code := 200; reason := "OK"; text := "";
                   json := Ok body |} in
  outcome (get_company_overview_CP2 "finnhub-key" "AAPL") (answer (PyList [])) =
    Raise (OtherError "AttributeError" "'list' object has no attribute 'get'")
  /\ outcome (get_company_overview_CP2 "finnhub-key" "AAPL") (answer PyNone) =
       Raise (OtherError "TypeError" "argument of type 'NoneType' is not iterable")
  /\ outcome (get_company_overview_CP2 "finnhub-key" "AAPL")
             (answer (PyStr "upstream error")) = Ok (PyStr "upstream error")
  /\ outcome (get_compliance_report "zoya-key" (PyStr "AAPL"))
             (answer (PyDict [("data", PyList [PyInt 1])])) =
       Raise (OtherError "AttributeError" "'list' object has no attribute 'get'").
Proof. intros answer. split_and!; reflexivity. Qed.

(** ** Session memory *)

Lemma get_lookup (session_id : string) (state : gmap string (list Message)) :
  get session_id state = default [] (state !! session_id).
Proof.
  unfold get, get_session_history, new_history, messages. cbn.
  destruct (state !! session_id) as [history |] eqn:Hstate.
  - by rewrite Hstate.
  - by rewrite lookup_insert_eq.
Qed.

Lemma get_after_history (a b : string) (state : gmap string (list Message)) :
  get b (snd (get_session_history a state)) = get b state.
Proof.
  rewrite !get_lookup. unfold get_session_history, new_history. cbn.
  destruct (state !! a) as [history |] eqn:Hstate; [done |].
  destruct (decide (a = b)) as [<- | Hne].
  - by rewrite lookup_insert_eq, Hstate.
  - by rewrite lookup_insert_ne.
Qed.

Lemma get_append_same (a : string) (m : Message) (state : gmap string (list Message)) :
  get a (append a m state) = (get a state ++ [m])%list.
Proof.
  rewrite (get_lookup a (append a m state)).
  unfold append, add_message. cbn. by rewrite lookup_insert_eq.
Qed.

Lemma get_append_other (a b : string) (m : Message)
    (state : gmap string (list Message)) :
  a <> b -> get b (append a m state) = get b state.
Proof.
  intros Hne. rewrite (get_lookup b (append a m state)).
  unfold append, add_message. cbn. rewrite lookup_insert_ne by done.
  rewrite <- get_lookup. apply get_after_history.
Qed.

(** A message found in a session's history was either there at the start or
    appended to that very session. *)
Lemma history_origin (b : string) (m : Message) (ops : list Operation) :
  forall state,
    In m (get b (fold_left step ops state)) ->
    In m (get b state) \/ In (Append b m) ops.
Proof.
  induction ops as [| op ops IH]; intros state Hin; [by left |].
  cbn [fold_left] in Hin. apply IH in Hin as [Hin | Hin]; [| right; by right].
  destruct op as [a | a m']; cbn [step] in Hin.
  - rewrite get_after_history in Hin. by left.
  - destruct (decide (a = b)) as [-> | Hne].
    + rewrite get_append_same in Hin. apply in_app_or in Hin as [Hin | Hin].
      * by left.
      * destruct Hin as [-> | []]. right. by left.
    + rewrite get_append_other in Hin by done. by left.
Qed.

(** C9. For two distinct session identifiers, after any sequence of
    operations, appending a message to one session leaves the history
    retrieved for the other as it was; a message never appended to that
    other session is not in it. *)
Theorem sessions_do_not_share_state (a b : string) (m : Message)
    (ops : list Operation) :
  a <> b ->
  get b (append a m (run ops)) = get b (run ops)
  /\ (~ In (Append b m) ops -> ~ In m (get b (append a m (run ops)))).
Proof.
  intros Hne. split; [by apply get_append_other |].
  intros Hnever Hin. rewrite get_append_other in Hin by done.
  apply history_origin in Hin as [Hin | Hin]; [| contradiction].
  rewrite get_lookup, lookup_empty in Hin. destruct Hin.
Qed.

Lemma sessions_do_not_share_state_witness :
  let hello := {| type := "human"; content := "Is AAPL halal?" |} in
  let reply := {| type := "ai"; content := "AAPL is compliant." |} in
  let ops := [Append "Default Chat" hello; Get "New Chat - 10:15:00";
              Append "New Chat - 10:15:00" hello] in
  get "New Chat - 10:15:00" (append "Default Chat" reply (run ops)) = [hello]
  /\ ~ In reply (get "New Chat - 10:15:00" (append "Default Chat" reply (run ops))).
Proof.
  intros hello reply ops.
  destruct (sessions_do_not_share_state "Default Chat" "New Chat - 10:15:00"
              reply ops ltac:(discriminate)) as [Hsame Hnot].
  split.
  - rewrite Hsame. vm_compute. reflexivity.
  - apply Hnot. intros [H | [H | [H | []]]]; discriminate.
Defined.

(** * Further properties of the adapters *)

(** X1. Neither adapter lets an exception out, whatever the transport does:
    the REST adapter returns some value and the GraphQL adapter a mapping. *)
Theorem adapters_never_raise (finnhub_key zoya_key url endpoint query : string)
    (variables operation_name : PyVal) (extra : option (list (string * string)))
    (world : Transport) :
  (exists v, outcome (retrieve_from_endpoint finnhub_key url) world = Ok v)
  /\ (exists entries,
         outcome (retrieve_graphql_endpoint zoya_key endpoint query variables
                    operation_name extra) world = Ok (PyDict entries)).
Proof.
  split.
  - apply retrieve_from_endpoint_returns.
  - apply retrieve_graphql_endpoint_returns.
Qed.

(** X2. No adapter retries. The REST adapter issues exactly one request per
    call, the GET of the URL with the configured key in [X-Finnhub-Token];
    the GraphQL adapter never issues more than one, and a request it issues
    is the POST of its payload to the endpoint with its headers. This holds
    also when the transport fails or the status is an error. *)
Theorem adapters_do_not_retry (finnhub_key zoya_key url endpoint query : string)
    (variables operation_name : PyVal) (extra : option (list (string * string)))
    (world : Transport) :
  requests_sent (retrieve_from_endpoint finnhub_key url) world =
    [GET url [("X-Finnhub-Token", finnhub_key)]]
  /\ (length (requests_sent (retrieve_graphql_endpoint zoya_key endpoint query
                               variables operation_name extra) world) <= 1)%nat
  /\ (forall req,
         In req (requests_sent (retrieve_graphql_endpoint zoya_key endpoint query
                                  variables operation_name extra) world) ->
         req = POST endpoint (graphql_headers zoya_key extra)
                    (PyDict (graphql_payload query variables operation_name))).
Proof.
  split_and!.
  - apply retrieve_from_endpoint_sent.
  - by rewrite retrieve_graphql_endpoint_sent.
  - rewrite retrieve_graphql_endpoint_sent. by intros req [<- | []].
Qed.

Lemma error_status_raises (url : string) (response : Response) :
  400 <= status_code response < 600 ->
  exists message, raise_for_status url response = Raise (HTTPError response message).
Proof.
  intros Hstatus. unfold raise_for_status.
  destruct (Z.leb_spec 400 (status_code response)); [| lia].
  destruct (Z.ltb_spec (status_code response) 500); cbn; [by eexists |].
  destruct (Z.leb_spec 500 (status_code response)); [| lia].
  destruct (Z.ltb_spec (status_code response) 600); cbn; [by eexists | lia].
Qed.

(** X3. A response with a status from 400 to 599 is reported by both
    adapters as [HTTPError <status> - <reason>] with the URL and, under
    ["detail"], the response text as received; the body is not parsed. *)
Theorem http_error_is_reported (finnhub_key zoya_key url endpoint query : string)
    (variables operation_name : PyVal) (extra : option (list (string * string)))
    (world : Transport) (response : Response) :
  400 <= status_code response < 600 ->
  (world (GET url [("X-Finnhub-Token", finnhub_key)]) = Ok response ->
   outcome (retrieve_from_endpoint finnhub_key url) world =
     Ok (PyDict [("error", PyStr ("HTTPError " ++ str_of_int (status_code response)
                                  ++ " - " ++ reason response));
                 ("url", PyStr url);
                 ("detail", PyStr (text response))]))
  /\ (world (POST endpoint (graphql_headers zoya_key extra)
               (PyDict (graphql_payload query variables operation_name)))
        = Ok response ->
      outcome (retrieve_graphql_endpoint zoya_key endpoint query variables
                 operation_name extra) world =
        Ok (PyDict [("error", PyStr ("HTTPError " ++ str_of_int (status_code response)
                                     ++ " - " ++ reason response));
                    ("url", PyStr endpoint);
                    ("detail", PyStr (text response))])).
Proof.
  intros Hstatus. split; intros Hworld.
  - destruct (error_status_raises url response Hstatus) as [message Hraise].
    unfold retrieve_from_endpoint. run_net. rewrite Hworld. cbn.
    by rewrite Hraise.
  - destruct (error_status_raises endpoint response Hstatus) as [message Hraise].
    unfold retrieve_graphql_endpoint. run_net. rewrite Hworld. cbn.
    by rewrite Hraise.
Qed.

Lemma http_error_is_reported_witness :
  let response := {| status_code := 404; reason := "Not Found";
                     text := "no such symbol"; json := Raise "Expecting value" |} in
  let world : Transport := fun _ => Ok response in
  outcome (retrieve_from_endpoint "finnhub-key" "https://finnhub.io/api/v1/x") world =
    Ok (PyDict [("error", PyStr "HTTPError 404 - Not Found");
                ("url", PyStr "https://finnhub.io/api/v1/x");
                ("detail", PyStr "no such symbol")])
  /\ outcome (retrieve_graphql_endpoint "zoya-key" "https://api.zoya.finance/graphql"
                "query { ping }" PyNone PyNone None) world =
       Ok (PyDict [("error", PyStr "HTTPError 404 - Not Found");
                   ("url", PyStr "https://api.zoya.finance/graphql");
                   ("detail", PyStr "no such symbol")]).
Proof.
  intros response world.
  pose proof (http_error_is_reported "finnhub-key" "zoya-key"
                "https://finnhub.io/api/v1/x" "https://api.zoya.finance/graphql"
                "query { ping }" PyNone PyNone None world response
                ltac:(simpl; lia)) as [Hrest Hgraphql].
  split.
  - exact (Hrest eq_refl).
  - exact (Hgraphql eq_refl).
Defined.

Lemma other_status_passes (url : string) (response : Response) :
  ~ (400 <= status_code response < 600) -> raise_for_status url response = Ok tt.
Proof.
  intros Hstatus. unfold raise_for_status.
  destruct (Z.leb_spec 400 (status_code response)),
           (Z.ltb_spec (status_code response) 500),
           (Z.leb_spec 500 (status_code response)),
           (Z.ltb_spec (status_code response) 600); cbn; try done; lia.
Qed.

Lemma rest_success_result (api_key url : string) (world : Transport)
    (response : Response) (body : PyVal) :
  world (GET url [("X-Finnhub-Token", api_key)]) = Ok response ->
  ~ (400 <= status_code response < 600) ->
  json response = Ok body ->
  outcome (retrieve_from_endpoint api_key url) world = Ok body.
Proof.
  intros Hworld Hstatus Hjson. unfold retrieve_from_endpoint. run_net.
  rewrite Hworld. cbn. rewrite (other_status_passes url _ Hstatus). cbn.
  unfold response_json. by rewrite Hjson.
Qed.

(** X4. When the status is outside 400-599 and the body parses, the REST
    adapter returns the parsed body itself, whatever its type. *)
Theorem retrieve_from_endpoint_success (api_key url : string) (world : Transport)
    (response : Response) (body : PyVal) :
  world (GET url [("X-Finnhub-Token", api_key)]) = Ok response ->
  ~ (400 <= status_code response < 600) ->
  json response = Ok body ->
  outcome (retrieve_from_endpoint api_key url) world = Ok body.
Proof.
  intros Hworld Hstatus Hjson.
  by apply (rest_success_result api_key url world response).
Qed.

Lemma retrieve_from_endpoint_success_witness :
  outcome (retrieve_from_endpoint "finnhub-key" "https://finnhub.io/api/v1/x")
          (fun _ => Ok {| status_code := 304; reason := "Not Modified"; text := "[1]";
                          json := Ok (PyList [PyInt 1]) |}) =
    Ok (PyList [PyInt 1]).
Proof.
  apply (retrieve_from_endpoint_success "finnhub-key" "https://finnhub.io/api/v1/x" _
           {| status_code := 304; reason := "Not Modified"; text := "[1]";
              json := Ok (PyList [PyInt 1]) |} (PyList [PyInt 1])).
  - reflexivity.
  - simpl. lia.
  - reflexivity.
Defined.

(** X5. When the transport itself fails with an exception other than
    [HTTPError], both adapters report [Unexpected error: <class> - <message>]
    with the URL; the GraphQL adapter adds the detail
    [Failed to parse JSON response.] when the exception belongs to the
    [ValueError] family, although no response was read. *)
Theorem transport_failure_is_reported (finnhub_key zoya_key url endpoint query : string)
    (variables operation_name : PyVal) (extra : option (list (string * string)))
    (world : Transport) (e : PyExc) :
  (forall response message, e <> HTTPError response message) ->
  (world (GET url [("X-Finnhub-Token", finnhub_key)]) = Raise e ->
   outcome (retrieve_from_endpoint finnhub_key url) world =
     Ok (PyDict [("error", PyStr ("Unexpected error: " ++ exc_type_name e
                                  ++ " - " ++ exc_str e));
                 ("url", PyStr url)]))
  /\ (world (POST endpoint (graphql_headers zoya_key extra)
               (PyDict (graphql_payload query variables operation_name)))
        = Raise e ->
      outcome (retrieve_graphql_endpoint zoya_key endpoint query variables
                 operation_name extra) world =
        Ok (PyDict
              (("error", PyStr ("Unexpected error: " ++ exc_type_name e
                                ++ " - " ++ exc_str e))
               :: ("url", PyStr endpoint)
               :: match e with
                  | ValueError _ _ =>
                      [("detail", PyStr "Failed to parse JSON response.")]
                  | _ => []
                  end))).
Proof.
  intros Hnot. split; intros Hworld.
  - unfold retrieve_from_endpoint. run_net. rewrite Hworld. cbn.
    destruct e as [response message | |]; [by destruct (Hnot response message) | done | done].
  - unfold retrieve_graphql_endpoint. run_net. rewrite Hworld. cbn.
    destruct e as [response message | |]; [by destruct (Hnot response message) | done | done].
Qed.

Lemma transport_failure_is_reported_witness :
  outcome (retrieve_from_endpoint "finnhub-key" "https://finnhub.io/api/v1/x")
          (fun _ => Raise (OtherError "ConnectionError" "connection refused")) =
    Ok (PyDict [("error", PyStr "Unexpected error: ConnectionError - connection refused");
                ("url", PyStr "https://finnhub.io/api/v1/x")])
  /\ outcome (retrieve_graphql_endpoint "zoya-key" "api.zoya.finance"
                "query { ping }" PyNone PyNone None)
             (fun _ => Raise (ValueError "MissingSchema" "no scheme supplied")) =
       Ok (PyDict [("error", PyStr "Unexpected error: MissingSchema - no scheme supplied");
                   ("url", PyStr "api.zoya.finance");
                   ("detail", PyStr "Failed to parse JSON response.")]).
Proof.
  split.
  - apply (proj1 (transport_failure_is_reported "finnhub-key" "zoya-key"
                    "https://finnhub.io/api/v1/x" "" "" PyNone PyNone None _
                    (OtherError "ConnectionError" "connection refused")
                    ltac:(discriminate))).
    reflexivity.
  - apply (proj2 (transport_failure_is_reported "finnhub-key" "zoya-key"
                    "" "api.zoya.finance" "query { ping }" PyNone PyNone None _
                    (ValueError "MissingSchema" "no scheme supplied")
                    ltac:(discriminate))).
    reflexivity.
Defined.

(** X6. A parsed mapping whose ["errors"] is true in a condition makes the
    GraphQL adapter return [GraphQLError] with those errors and an echo of
    the request: endpoint, operation name and variables as passed. *)
Theorem graphql_errors_are_reported (api_key endpoint query : string)
    (variables operation_name : PyVal) (extra : option (list (string * string)))
    (world : Transport) (response : Response) (body : list (string * PyVal))
    (errors : PyVal) :
  world (POST endpoint (graphql_headers api_key extra)
           (PyDict (graphql_payload query variables operation_name))) = Ok response ->
  ~ (400 <= status_code response < 600) ->
  json response = Ok (PyDict body) ->
  lookup_key "errors" body = Some errors ->
  truthy errors = true ->
  outcome (retrieve_graphql_endpoint api_key endpoint query variables
             operation_name extra) world =
    Ok (PyDict [("error", PyStr "GraphQLError");
                ("errors", errors);
                ("request", PyDict [("endpoint", PyStr endpoint);
                                    ("operationName", operation_name);
                                    ("variables", variables)])]).
Proof.
  intros Hworld Hstatus Hjson Herrors Htruthy.
  unfold retrieve_graphql_endpoint. run_net. rewrite Hworld. cbn.
  rewrite (other_status_passes endpoint _ Hstatus). cbn.
  unfold response_json. rewrite Hjson. cbn.
  unfold dict_get. rewrite Herrors. by rewrite Htruthy.
Qed.

Lemma graphql_errors_are_reported_witness :
  outcome (retrieve_graphql_endpoint "zoya-key" "https://api.zoya.finance/graphql"
             "query { ping }" (PyDict [("symbol", PyStr "AAPL")]) PyNone None)
          (fun _ => Ok {| status_code := 200; reason := "OK"; text := "";
                          json := Ok (PyDict [("errors", PyList [PyStr "bad field"]);
                                              ("data", PyNone)]) |}) =
    Ok (PyDict [("error", PyStr "GraphQLError");
                ("errors", PyList [PyStr "bad field"]);
                ("request", PyDict [("endpoint", PyStr "https://api.zoya.finance/graphql");
                                    ("operationName", PyNone);
                                    ("variables", PyDict [("symbol", PyStr "AAPL")])])]).
Proof.
  apply (graphql_errors_are_reported "zoya-key" "https://api.zoya.finance/graphql"
           "query { ping }" (PyDict [("symbol", PyStr "AAPL")]) PyNone None _
           {| status_code := 200; reason := "OK"; text := "";
              json := Ok (PyDict [("errors", PyList [PyStr "bad field"]);
                                  ("data", PyNone)]) |}
           [("errors", PyList [PyStr "bad field"]); ("data", PyNone)]
           (PyList [PyStr "bad field"])).
  - reflexivity.
  - simpl. lia.
  - reflexivity.
  - reflexivity.
  - reflexivity.
Defined.

Lemma graphql_no_errors_result (api_key endpoint query : string)
    (variables operation_name : PyVal) (extra : option (list (string * string)))
    (world : Transport) (response : Response) (body : PyVal) :
  world (POST endpoint (graphql_headers api_key extra)
           (PyDict (graphql_payload query variables operation_name))) = Ok response ->
  ~ (400 <= status_code response < 600) ->
  json response = Ok body ->
  (forall entries errors,
      body = PyDict entries -> lookup_key "errors" entries = Some errors ->
      truthy errors = false) ->
  outcome (retrieve_graphql_endpoint api_key endpoint query variables
             operation_name extra) world =
    Ok (PyDict [("data",
                 match body with
                 | PyDict entries =>
                     match lookup_key "data" entries with
                     | Some data => data
                     | None => PyNone
                     end
                 | _ => PyNone
                 end)]).
Proof.
  intros Hworld Hstatus Hjson Herrors.
  unfold retrieve_graphql_endpoint. run_net. rewrite Hworld. cbn.
  rewrite (other_status_passes endpoint _ Hstatus). cbn.
  unfold response_json. rewrite Hjson. cbn.
  destruct body as [| | | | | | entries]; try done.
  assert (truthy (dict_get entries "errors") = false) as ->; [| done].
  unfold dict_get.
  destruct (lookup_key "errors" entries) as [errors |] eqn:Hlookup; [| done].
  by apply (Herrors entries).
Qed.

(** X7. A parsed body without errors -- no ["errors"] key, or a false value
    there such as an empty list -- makes the GraphQL adapter return a
    mapping with the single key ["data"]: the body's ["data"], or [None] when
    the body has none or is not a mapping. Every other key of the body is
    dropped. *)
Theorem graphql_success_keeps_only_data (api_key endpoint query : string)
    (variables operation_name : PyVal) (extra : option (list (string * string)))
    (world : Transport) (response : Response) (body : PyVal) :
  world (POST endpoint (graphql_headers api_key extra)
           (PyDict (graphql_payload query variables operation_name))) = Ok response ->
  ~ (400 <= status_code response < 600) ->
  json response = Ok body ->
  (forall entries errors,
      body = PyDict entries -> lookup_key "errors" entries = Some errors ->
      truthy errors = false) ->
  outcome (retrieve_graphql_endpoint api_key endpoint query variables
             operation_name extra) world =
    Ok (PyDict [("data",
                 match body with
                 | PyDict entries =>
                     match lookup_key "data" entries with
                     | Some data => data
                     | None => PyNone
                     end
                 | _ => PyNone
                 end)]).
Proof.
  intros Hworld Hstatus Hjson Herrors.
  by apply (graphql_no_errors_result api_key endpoint query variables
              operation_name extra world response body).
Qed.

Lemma graphql_success_keeps_only_data_witness :
  let answer (body : PyVal) : Transport :=
    fun _ => Ok {| status_code := 200; reason := "OK"; text := ""; json := Ok body |} in
  outcome (retrieve_graphql_endpoint "zoya-key" "https://api.zoya.finance/graphql"
             "query { ping }" PyNone PyNone None)
          (answer (PyDict [("errors", PyList []);
                           ("extensions", PyInt 1);
                           ("data", PyDict [("ping", PyBool true)])])) =
    Ok (PyDict [("data", PyDict [("ping", PyBool true)])])
  /\ outcome (retrieve_graphql_endpoint "zoya-key" "https://api.zoya.finance/graphql"
                "query { ping }" PyNone PyNone None)
             (answer (PyStr "pong")) =
       Ok (PyDict [("data", PyNone)]).
Proof.
  intros answer. split.
  - apply (graphql_success_keeps_only_data "zoya-key" "https://api.zoya.finance/graphql"
             "query { ping }" PyNone PyNone None _
             {| status_code := 200; reason := "OK"; text := "";
                json := Ok (PyDict [("errors", PyList []);
                                    ("extensions", PyInt 1);
                                    ("data", PyDict [("ping", PyBool true)])]) |}
             (PyDict [("errors", PyList []);
                      ("extensions", PyInt 1);
                      ("data", PyDict [("ping", PyBool true)])])).
    + reflexivity.
    + simpl. lia.
    + reflexivity.
    + intros entries errors [= <-] [= <-]. reflexivity.
  - apply (graphql_success_keeps_only_data "zoya-key" "https://api.zoya.finance/graphql"
             "query { ping }" PyNone PyNone None _
             {| status_code := 200; reason := "OK"; text := "";
                json := Ok (PyStr "pong") |} (PyStr "pong")).
    + reflexivity.
    + simpl. lia.
    + reflexivity.
    + intros entries errors [=].
Defined.

(** ** Headers of the GraphQL adapter *)

Lemma header_dict_set (name key value : string) (headers : list (string * string)) :
  header name (dict_set key value headers) =
    if String.eqb name key then Some value else header name headers.
Proof.
  induction headers as [| [k v] rest IH]; cbn [dict_set header]; [done |].
  destruct (String.eqb_spec key k) as [-> | Hne]; cbn [header].
  - by destruct (String.eqb k name) eqn:E; rewrite String.eqb_sym, E.
  - rewrite IH. destruct (String.eqb_spec name k) as [-> | Hne']; [| done].
    by destruct (String.eqb_spec k key) as [-> | _].
Qed.

Lemma header_dict_update (name : string) (other headers : list (string * string)) :
  header name (dict_update headers other) =
    match header name (rev other) with
    | Some value => Some value
    | None => header name headers
    end.
Proof.
  unfold dict_update. revert headers.
  induction other as [| [k v] other IH]; intros headers; [done |].
  cbn [fold_left fst snd rev]. rewrite IH, header_dict_set.
  assert (forall l, header name (l ++ [(k, v)])%list =
                    match header name l with
                    | Some value => Some value
                    | None => if String.eqb name k then Some v else None
                    end) as Happ.
  { induction l as [| [k' v'] l IHl]; cbn [header app]; [done |].
    by destruct (String.eqb name k'). }
  rewrite Happ. destruct (header name (rev other)); [done |].
  by destruct (String.eqb name k).
Qed.

Lemma header_rev_nodup (name value : string) (headers : list (string * string)) :
  List.NoDup (map fst headers) -> In (name, value) headers ->
  header name (rev headers) = Some value.
Proof.
  induction headers as [| [k v] rest IH]; [done |].
  cbn [map fst rev]. intros Hnodup Hin.
  apply List.NoDup_cons_iff in Hnodup as [Hfresh Hnodup].
  assert (forall l, header name (l ++ [(k, v)])%list =
                    match header name l with
                    | Some value => Some value
                    | None => if String.eqb name k then Some v else None
                    end) as Happ.
  { induction l as [| [k' v'] l IHl]; cbn [header app]; [done |].
    by destruct (String.eqb name k'). }
  rewrite Happ. destruct Hin as [[= -> ->] | Hin].
  - rewrite String.eqb_refl.
    destruct (header name (rev rest)) as [value' |] eqn:Hrest; [| done].
    exfalso. apply Hfresh. clear -Hrest.
    assert (forall l, header name l = Some value' -> In name (map fst l)) as Hkey.
    { induction l as [| [k' v'] l IHl]; cbn [header map fst]; [done |].
      destruct (String.eqb_spec name k') as [-> | _]; [by left | right; by apply IHl]. }
    apply Hkey in Hrest. rewrite map_rev in Hrest. by apply in_rev.
  - by rewrite (IH Hnodup Hin).
Qed.

Lemma header_rev_absent (name : string) (headers : list (string * string)) :
  ~ In name (map fst headers) -> header name (rev headers) = None.
Proof.
  intros Habsent.
  destruct (header name (rev headers)) as [value |] eqn:Hrev; [| done].
  exfalso. apply Habsent.
  assert (forall l, header name l = Some value -> In name (map fst l)) as Hkey.
  { induction l as [| [k' v'] l IHl]; cbn [header map fst]; [done |].
    destruct (String.eqb_spec name k') as [-> | _]; [by left | right; by apply IHl]. }
  apply Hkey in Hrev. rewrite map_rev in Hrev. by apply in_rev.
Qed.

(** X8. The GraphQL adapter sends [Authorization: <configured key>],
    [Content-Type] and [Accept: application/json]; a header given in
    [extra_headers] replaces the default of the same name, and a default not
    named there is kept. *)
Theorem extra_headers_take_precedence (api_key : string)
    (extra : list (string * string)) :
  List.NoDup (map fst extra) ->
  (forall name value,
      In (name, value) extra ->
      header name (graphql_headers api_key (Some extra)) = Some value)
  /\ (forall name,
         ~ In name (map fst extra) ->
         header name (graphql_headers api_key (Some extra)) =
           header name [("Authorization", api_key);
                        ("Content-Type", "application/json");
                        ("Accept", "application/json")]).
Proof.
  intros Hnodup.
  assert (forall name,
             header name (graphql_headers api_key (Some extra)) =
               match header name (rev extra) with
               | Some value => Some value
               | None => header name [("Authorization", api_key);
                                      ("Content-Type", "application/json");
                                      ("Accept", "application/json")]
               end) as Hheaders.
  { intros name. unfold graphql_headers.
    destruct extra as [| entry more]; [done |]. apply header_dict_update. }
  split.
  - intros name value Hin. by rewrite Hheaders, (header_rev_nodup _ _ _ Hnodup Hin).
  - intros name Habsent. by rewrite Hheaders, (header_rev_absent _ _ Habsent).
Qed.

Lemma extra_headers_take_precedence_witness :
  let extra := [("Authorization", "other-key"); ("X-Trace", "1")] in
  header "Authorization" (graphql_headers "zoya-key" (Some extra)) = Some "other-key"
  /\ header "X-Trace" (graphql_headers "zoya-key" (Some extra)) = Some "1"
  /\ header "Accept" (graphql_headers "zoya-key" (Some extra)) = Some "application/json".
Proof.
  intros extra.
  assert (List.NoDup (map fst extra)) as Hnodup.
  { unfold extra. simpl.
    apply List.NoDup_cons; [simpl; intros [H | []]; discriminate |].
    apply List.NoDup_cons; [simpl; intros [] |]. apply List.NoDup_nil. }
  destruct (extra_headers_take_precedence "zoya-key" extra Hnodup) as [Hgiven Hkept].
  split_and!.
  - apply Hgiven. unfold extra. simpl. by left.
  - apply Hgiven. unfold extra. simpl. right. by left.
  - rewrite Hkept; [reflexivity |].
    unfold extra. simpl. intros [H | [H | []]]; discriminate.
Defined.

(** * Further properties of the tools *)

(** What a result of the GraphQL adapter with a ["data"] key looks like: it
    has that key only, and it comes from a response whose body parsed. *)
Lemma graphql_result_shape (api_key endpoint query : string)
    (variables operation_name : PyVal) (extra : option (list (string * string)))
    (world : Transport) (entries : list (string * PyVal)) :
  outcome (retrieve_graphql_endpoint api_key endpoint query variables
             operation_name extra) world = Ok (PyDict entries) ->
  has_key "data" entries = true ->
  exists response body,
    world (POST endpoint (graphql_headers api_key extra)
             (PyDict (graphql_payload query variables operation_name))) = Ok response
    /\ json response = Ok body
    /\ entries = [("data", match body with
                           | PyDict fields => dict_get fields "data"
                           | _ => PyNone
                           end)].
Proof.
  unfold retrieve_graphql_endpoint. run_net.
  destruct (world _) as [response | e] eqn:Hworld; cbn.
  - destruct (raise_for_status endpoint response) as [[] | e]; cbn.
    + unfold response_json.
      destruct (json response) as [body | message] eqn:Hjson; cbn.
      * destruct body as [| | | | | | fields]; cbn;
          try (intros [= <-] _; by eexists _, _).
        destruct (truthy (dict_get fields "errors")); cbn; intros [= <-]; [done |].
        intros _. by eexists _, _.
      * by intros [= <-].
    + destruct e; cbn; by intros [= <-].
  - destruct e; cbn; by intros [= <-].
Qed.

(** X9. When the compliance service answers with a report for an ASCII
    symbol that is not empty once trimmed, the tool returns
    the adapter's result as it is: the mapping with the single key ["data"]
    that holds the service's data, report included. *)
Theorem get_compliance_report_found (api_key symbol : string) (world : Transport)
    (response : Response) (body data compliance : list (string * PyVal))
    (report : PyVal) :
  is_ascii symbol = true ->
  strip symbol <> "" ->
  world (compliance_request api_key (upper (strip symbol))) = Ok response ->
  ~ (400 <= status_code response < 600) ->
  json response = Ok (PyDict body) ->
  (forall errors, lookup_key "errors" body = Some errors -> truthy errors = false) ->
  lookup_key "data" body = Some (PyDict data) ->
  lookup_key "basicCompliance" data = Some (PyDict compliance) ->
  lookup_key "report" compliance = Some report ->
  report <> PyNone ->
  outcome (get_compliance_report api_key (PyStr symbol)) world =
    Ok (PyDict [("data", PyDict data)]).
Proof.
  intros _ Hs Hworld Hstatus Hjson Herrors Hdata Hcompliance Hreport Hsome.
  rewrite (get_compliance_report_outcome api_key symbol world
             [("data", PyDict data)] Hs).
  - cbn. unfold report_of, py_or.
    assert (truthy (PyDict data) = true) as -> by (by destruct data).
    cbn. unfold dict_get. rewrite Hcompliance.
    assert (truthy (PyDict compliance) = true) as -> by (by destruct compliance).
    cbn. unfold dict_get. rewrite Hreport. by destruct report.
  - rewrite (graphql_no_errors_result api_key compliance_endpoint
               query_compliance_report
               (PyDict [("symbol", PyStr (upper (strip symbol)))])
               (PyStr "getReport") None world response (PyDict body)
               Hworld Hstatus Hjson).
    + by rewrite Hdata.
    + intros entries errors [= <-]. apply Herrors.
Qed.

Lemma get_compliance_report_found_witness :
  let report := PyDict [("symbol", PyStr "AAPL"); ("status", PyStr "COMPLIANT");
                        ("purificationRatio", PyFloat 0.5)] in
  outcome (get_compliance_report "zoya-key" (PyStr " aapl"))
          (fun _ => Ok {| status_code := 200; reason := "OK"; text := "";
                          json := Ok (PyDict [("data",
                                     PyDict [("basicCompliance",
                                              PyDict [("report", report)])])]) |}) =
    Ok (PyDict [("data", PyDict [("basicCompliance", PyDict [("report", report)])])]).
Proof.
  intros report.
  apply (get_compliance_report_found "zoya-key" " aapl" _
           {| status_code := 200; reason := "OK"; text := "";
              json := Ok (PyDict [("data",
                         PyDict [("basicCompliance",
                                  PyDict [("report", report)])])]) |}
           [("data", PyDict [("basicCompliance", PyDict [("report", report)])])]
           [("basicCompliance", PyDict [("report", report)])]
           [("report", report)] report).
  - reflexivity.
  - vm_compute. discriminate.
  - reflexivity.
  - simpl. lia.
  - reflexivity.
  - intros errors [=].
  - reflexivity.
  - reflexivity.
  - reflexivity.
  - discriminate.
Defined.

(** X10. For an ASCII symbol that is not empty once trimmed, a failure of
    the adapter -- a result with an ["error"] key, be it an HTTP error, a
    GraphQL error or an unexpected one -- is returned by
    [get_compliance_report] unchanged. *)
Theorem get_compliance_report_passes_failures (api_key symbol : string)
    (world : Transport) (entries : list (string * PyVal)) :
  is_ascii symbol = true ->
  strip symbol <> "" ->
  outcome (retrieve_graphql_endpoint api_key compliance_endpoint
             query_compliance_report
             (PyDict [("symbol", PyStr (upper (strip symbol)))])
             (PyStr "getReport") None) world = Ok (PyDict entries) ->
  has_key "error" entries = true ->
  outcome (get_compliance_report api_key (PyStr symbol)) world = Ok (PyDict entries).
Proof.
  intros _ Hs Hadapter Herror.
  rewrite (get_compliance_report_outcome api_key symbol world entries Hs Hadapter).
  destruct (has_key "data" entries) eqn:Hdata; [| done].
  destruct (graphql_result_shape _ _ _ _ _ _ _ _ Hadapter Hdata)
    as (response & body & _ & _ & ->).
  discriminate.
Qed.

Lemma get_compliance_report_passes_failures_witness :
  outcome (get_compliance_report "zoya-key" (PyStr "AAPL"))
          (fun _ => Ok {| status_code := 401; reason := "Unauthorized";
                          text := "bad key"; json := Raise "Expecting value" |}) =
    Ok (PyDict [("error", PyStr "HTTPError 401 - Unauthorized");
                ("url", PyStr "https://api.zoya.finance/graphql");
                ("detail", PyStr "bad key")]).
Proof.
  apply (get_compliance_report_passes_failures "zoya-key" "AAPL" _
           [("error", PyStr "HTTPError 401 - Unauthorized");
            ("url", PyStr "https://api.zoya.finance/graphql");
            ("detail", PyStr "bad key")]).
  - reflexivity.
  - vm_compute. discriminate.
  - reflexivity.
  - reflexivity.
Defined.

(** X11. [get_compliance_report] raises nothing and returns a mapping, for
    every argument and every behaviour of the transport, provided each parsed
    mapping holds [None] or a mapping under ["data"] and, inside it, [None]
    or a mapping under ["basicCompliance"]. *)
Theorem get_compliance_report_returns_mapping (api_key : string) (symbol : PyVal)
    (world : Transport) :
  (forall req response body,
      world req = Ok response -> json response = Ok (PyDict body) ->
      mapping_or_null (dict_get body "data")
      /\ forall data, dict_get body "data" = PyDict data ->
                      mapping_or_null (dict_get data "basicCompliance")) ->
  exists entries,
    outcome (get_compliance_report api_key symbol) world = Ok (PyDict entries).
Proof.
  intros Hshape.
  destruct symbol as [| | | | s | |]; try by eexists.
  destruct (String.eqb_spec (strip s) "") as [Hempty | Hs].
  { unfold get_compliance_report. rewrite Hempty. by eexists. }
  destruct (retrieve_graphql_endpoint_returns api_key compliance_endpoint
              query_compliance_report
              (PyDict [("symbol", PyStr (upper (strip s)))])
              (PyStr "getReport") None world) as [entries Hadapter].
  rewrite (get_compliance_report_outcome api_key s world entries Hs Hadapter).
  destruct (has_key "data" entries) eqn:Hdata; [| by eexists].
  destruct (graphql_result_shape _ _ _ _ _ _ _ _ Hadapter Hdata)
    as (response & body & Hworld & Hjson & ->).
  cbn. unfold report_of, py_or.
  destruct body as [| | | | | | fields]; try by eexists.
  destruct (Hshape _ _ _ Hworld Hjson) as [Hnull Hinner].
  destruct Hnull as [-> | Hdict]; [by eexists |].
  destruct (dict_get fields "data") as [| | | | | | data] eqn:Hfield; try discriminate.
  specialize (Hinner data eq_refl).
  destruct (truthy (PyDict data)); cbn; [| by eexists].
  destruct Hinner as [-> | Hdict']; [by eexists |].
  destruct (dict_get data "basicCompliance") as [| | | | | | compliance];
    try discriminate.
  destruct (truthy (PyDict compliance)); cbn; [| by eexists].
  destruct (dict_get compliance "report"); by eexists.
Qed.

Lemma get_compliance_report_returns_mapping_witness :
  exists entries,
    outcome (get_compliance_report "zoya-key" (PyStr "AAPL"))
            (fun _ => Ok {| status_code := 200; reason := "OK"; text := "";
                            json := Ok (PyDict [("data", PyNone)]) |}) =
      Ok (PyDict entries).
Proof.
  apply (get_compliance_report_returns_mapping "zoya-key" (PyStr "AAPL")).
  intros req response body [= <-]. simpl. intros [= <-]. split.
  - left. reflexivity.
  - intros data. simpl. discriminate.
Defined.

(** What the REST adapter returns is a failure mapping of its own or the
    parsed body of the response. *)
Lemma rest_result_shape (api_key url : string) (world : Transport) (v : PyVal) :
  outcome (retrieve_from_endpoint api_key url) world = Ok v ->
  (exists entries, v = PyDict entries /\ has_key "error" entries = true)
  \/ exists response,
       world (GET url [("X-Finnhub-Token", api_key)]) = Ok response
       /\ json response = Ok v.
Proof.
  unfold retrieve_from_endpoint. run_net.
  destruct (world _) as [response | e] eqn:Hworld; cbn.
  - destruct (raise_for_status url response) as [[] | e]; cbn.
    + unfold response_json.
      destruct (json response) as [body | message] eqn:Hjson; cbn; intros [= <-].
      * right. by eexists.
      * left. by eexists.
    + destruct e; cbn; intros [= <-]; left; by eexists.
  - destruct e; cbn; intros [= <-]; left; by eexists.
Qed.

(** X12. On a parsed mapping without an ["error"] key the metrics tool
    returns the stock as given under ["symbol"] and the body's ["metric"]
    under ["latest_metrics"] -- an empty mapping when the body has no
    ["metric"] -- and nothing else of the body. *)
Theorem get_company_overview_success (api_key stock : string) (world : Transport)
    (response : Response) (body : list (string * PyVal)) :
  world (GET (metrics_url stock) [("X-Finnhub-Token", api_key)]) = Ok response ->
  ~ (400 <= status_code response < 600) ->
  json response = Ok (PyDict body) ->
  lookup_key "error" body = None ->
  outcome (get_company_overview_CP2 api_key stock) world =
    Ok (PyDict [("symbol", PyStr stock);
                ("latest_metrics",
                 match lookup_key "metric" body with
                 | Some metric => metric
                 | None => PyDict []
                 end)]).
Proof.
  intros Hworld Hstatus Hjson Herror.
  pose proof (rest_success_result api_key (metrics_url stock) world
                response (PyDict body) Hworld Hstatus Hjson) as Hadapter.
  unfold get_company_overview_CP2. revert Hadapter. run_net.
  destruct (retrieve_from_endpoint api_key (metrics_url stock) world)
    as [[data | e] sent]; cbn; intros [= ->]. cbn.
  unfold has_key. by rewrite Herror.
Qed.

Lemma get_company_overview_success_witness :
  let answer (body : PyVal) : Transport :=
    fun _ => Ok {| status_code := 200; reason := "OK"; text := ""; json := Ok body |} in
  outcome (get_company_overview_CP2 "finnhub-key" "AAPL")
          (answer (PyDict [("metric", PyDict [("peTTM", PyFloat 30)]);
                           ("metricType", PyStr "all");
                           ("series", PyDict [])])) =
    Ok (PyDict [("symbol", PyStr "AAPL");
                ("latest_metrics", PyDict [("peTTM", PyFloat 30)])])
  /\ outcome (get_company_overview_CP2 "finnhub-key" "AAPL") (answer (PyDict [])) =
       Ok (PyDict [("symbol", PyStr "AAPL"); ("latest_metrics", PyDict [])]).
Proof.
  intros answer. split.
  - apply (get_company_overview_success "finnhub-key" "AAPL" _
             {| status_code := 200; reason := "OK"; text := "";
                json := Ok (PyDict [("metric", PyDict [("peTTM", PyFloat 30)]);
                                    ("metricType", PyStr "all");
                                    ("series", PyDict [])]) |}
             [("metric", PyDict [("peTTM", PyFloat 30)]);
              ("metricType", PyStr "all");
              ("series", PyDict [])]);
      [reflexivity | simpl; lia | reflexivity | reflexivity].
  - apply (get_company_overview_success "finnhub-key" "AAPL" _
             {| status_code := 200; reason := "OK"; text := "";
                json := Ok (PyDict []) |} []);
      [reflexivity | simpl; lia | reflexivity | reflexivity].
Defined.

(** X13. Whatever mapping with an ["error"] key the REST adapter hands back
    -- its own failure report, or a parsed body that has such a key, even
    with a ["metric"] beside it -- the metrics tool returns it unchanged. *)
Theorem get_company_overview_passes_failures (api_key stock : string)
    (world : Transport) (entries : list (string * PyVal)) :
  outcome (retrieve_from_endpoint api_key (metrics_url stock)) world =
    Ok (PyDict entries) ->
  has_key "error" entries = true ->
  outcome (get_company_overview_CP2 api_key stock) world = Ok (PyDict entries).
Proof.
  unfold get_company_overview_CP2. run_net.
  destruct (retrieve_from_endpoint api_key (metrics_url stock) world)
    as [[data | e] sent]; cbn; intros [= ->] Herror. cbn.
  by rewrite Herror.
Qed.

Lemma get_company_overview_passes_failures_witness :
  outcome (get_company_overview_CP2 "finnhub-key" "AAPL")
          (fun _ => Ok {| status_code := 429; reason := "Too Many Requests";
                          text := "slow down"; json := Raise "Expecting value" |}) =
    Ok (PyDict [("error", PyStr "HTTPError 429 - Too Many Requests");
                ("url", PyStr (metrics_url "AAPL"));
                ("detail", PyStr "slow down")])
  /\ outcome (get_company_overview_CP2 "finnhub-key" "AAPL")
             (fun _ => Ok {| status_code := 200; reason := "OK"; text := "";
                             json := Ok (PyDict [("error", PyStr "no access");
                                                 ("metric", PyDict [])]) |}) =
       Ok (PyDict [("error", PyStr "no access"); ("metric", PyDict [])]).
Proof.
  split.
  - apply (get_company_overview_passes_failures "finnhub-key" "AAPL" _
             [("error", PyStr "HTTPError 429 - Too Many Requests");
              ("url", PyStr (metrics_url "AAPL"));
              ("detail", PyStr "slow down")]); reflexivity.
  - apply (get_company_overview_passes_failures "finnhub-key" "AAPL" _
             [("error", PyStr "no access"); ("metric", PyDict [])]); reflexivity.
Defined.

(** X14. The metrics tool raises nothing and returns a mapping, whatever the
    transport does, provided every body that parses is a mapping. *)
Theorem get_company_overview_returns_mapping (api_key stock : string)
    (world : Transport) :
  (forall req response body,
      world req = Ok response -> json response = Ok body -> is_dict body = true) ->
  exists entries,
    outcome (get_company_overview_CP2 api_key stock) world = Ok (PyDict entries).
Proof.
  intros Hshape.
  destruct (retrieve_from_endpoint_returns api_key (metrics_url stock) world)
    as [v Hadapter].
  destruct (rest_result_shape _ _ _ _ Hadapter)
    as [(entries & -> & _) | (response & Hworld & Hjson)].
  - by apply (get_company_overview_returns api_key stock world entries).
  - pose proof (Hshape _ _ _ Hworld Hjson) as Hdict.
    destruct v as [| | | | | | entries]; try discriminate.
    by apply (get_company_overview_returns api_key stock world entries).
Qed.

Lemma get_company_overview_returns_mapping_witness :
  exists entries,
    outcome (get_company_overview_CP2 "finnhub-key" "AAPL")
            (fun _ => Ok {| status_code := 200; reason := "OK"; text := "";
                            json := Ok (PyDict [("metric", PyNone)]) |}) =
      Ok (PyDict entries).
Proof.
  apply (get_company_overview_returns_mapping "finnhub-key" "AAPL").
  intros req response body [= <-]. simpl. intros [= <-]. reflexivity.
Defined.

(** ** The purification calculator *)

Lemma SFadd_comm (x y : spec_float) :
  SFadd prec emax x y = SFadd prec emax y x.
Proof.
  destruct x as [sx | sx | | sx mx ex], y as [sy | sy | | sy my ey];
    try reflexivity; try (by destruct sx, sy).
  cbn [SFadd]. by rewrite Z.min_comm, Z.add_comm.
Qed.

Lemma float_add_comm (x y : float) : (x + y)%float = (y + x)%float.
Proof.
  apply Prim2SF_inj. rewrite !add_spec. apply SFadd_comm.
Qed.

(** X15. The amount does not depend on which of the two incomes is passed
    as capital gain and which as dividend income: swapping them gives the
    same ["amount"] and the same ["status"]. *)
Theorem purification_amount_symmetric (ratio cg dv : PyVal) (world : Transport)
    (entries swapped : list (string * PyVal)) :
  outcome (get_purification_amount ratio cg dv) world = Ok (PyDict entries) ->
  outcome (get_purification_amount ratio dv cg) world = Ok (PyDict swapped) ->
  lookup_key "amount" entries = lookup_key "amount" swapped
  /\ lookup_key "status" entries = lookup_key "status" swapped.
Proof.
  unfold outcome, get_purification_amount, coerce_inputs.
  destruct (py_float ratio) as [r | e]; [| by intros [= <-] [= <-]].
  destruct (py_float cg) as [c | e], (py_float dv) as [d | e'];
    cbn; intros [= <-] [= <-]; try done.
  cbn. by rewrite (float_add_comm c d).
Qed.

Lemma purification_amount_symmetric_witness :
  let world : Transport := fun _ => Raise (OtherError "ConnectionError" "offline") in
  exists entries swapped,
    outcome (get_purification_amount (PyFloat 0.5) (PyInt 1000) (PyStr "200")) world =
      Ok (PyDict entries)
    /\ outcome (get_purification_amount (PyFloat 0.5) (PyStr "200") (PyInt 1000)) world =
         Ok (PyDict swapped)
    /\ lookup_key "amount" entries = Some (PyFloat 600)
    /\ lookup_key "amount" entries = lookup_key "amount" swapped.
Proof.
  intros world. eexists _, _.
  split; [reflexivity |]. split; [reflexivity |]. split; [reflexivity |].
  apply (proj1 (purification_amount_symmetric
                  (PyFloat 0.5) (PyInt 1000) (PyStr "200") world _ _
                  eq_refl eq_refl)).
Defined.

(** * Further properties of the session memory *)

Lemma history_after (a : string) (ops : list Operation) :
  forall state,
    get a (fold_left step ops state) = (get a state ++ appended_to a ops)%list.
Proof.
  induction ops as [| op ops IH]; intros state; cbn [fold_left appended_to].
  - by rewrite app_nil_r.
  - rewrite IH. destruct op as [b | b m]; cbn [step].
    + by rewrite get_after_history.
    + destruct (String.eqb_spec a b) as [<- | Hne].
      * rewrite get_append_same. by rewrite <- app_assoc.
      * by rewrite get_append_other.
Qed.

(** X16. After any sequence of reads and appends on a fresh state, the
    history retrieved for a session is exactly the messages appended to that
    session, in the order of the appends; in particular a session nothing was
    appended to has an empty history. *)
Theorem history_is_appended_messages (session_id : string) (ops : list Operation) :
  get session_id (run ops) = appended_to session_id ops.
Proof.
  unfold run. rewrite history_after. by rewrite get_lookup, lookup_empty.
Qed.

Lemma appended_to_app (a : string) (ops more : list Operation) :
  appended_to a (ops ++ more) = (appended_to a ops ++ appended_to a more)%list.
Proof.
  induction ops as [| [b | b m] ops IH]; cbn [appended_to app]; [done | done |].
  destruct (String.eqb a b); [| done]. by rewrite IH.
Qed.

(** X17. A history only grows: whatever operations follow, the messages
    retrieved before remain, in place, at the start of what is retrieved
    after; nothing is edited, reordered or removed. *)
Theorem history_only_grows (session_id : string) (ops more : list Operation) :
  get session_id (run (ops ++ more)) =
    (get session_id (run ops) ++ appended_to session_id more)%list.
Proof.
  unfold run. rewrite !history_after, !get_lookup, lookup_empty.
  cbn [default app]. apply appended_to_app.
Qed.

(** * The normalized symbol *)

Lemma upper_upper (s : string) : upper (upper s) = upper s.
Proof.
  unfold upper. induction s as [| c s IH]; [done |]. cbn [map_chars].
  rewrite IH. f_equal. by destruct c as [[] [] [] [] [] [] [] []].
Qed.

Lemma rstrip_rstrip (s : string) : rstrip (rstrip s) = rstrip s.
Proof.
  induction s as [| c s IH]; [done |]. cbn [rstrip].
  destruct (rstrip s) as [| c' kept] eqn:Hs.
  - destruct (isspace c) eqn:Hc; [done |]. cbn [rstrip]. by rewrite Hc.
  - cbn [rstrip]. cbn [rstrip] in IH. by rewrite IH.
Qed.

(** A string that does not begin with whitespace keeps its first character
    under [rstrip] and is left alone by [lstrip]. *)
Lemma lstrip_rstrip_lstrip (s : string) : lstrip (rstrip (lstrip s)) = rstrip (lstrip s).
Proof.
  induction s as [| c s IH]; [done |]. cbn [lstrip].
  destruct (isspace c) eqn:Hc; [done |]. cbn [rstrip].
  destruct (rstrip s) as [| c' kept]; [rewrite Hc |]; cbn [lstrip]; by rewrite Hc.
Qed.

Lemma strip_strip (s : string) : strip (strip s) = strip s.
Proof. unfold strip. by rewrite lstrip_rstrip_lstrip, rstrip_rstrip. Qed.

Lemma upper_empty (s : string) : upper s = "" -> s = "".
Proof. by destruct s. Qed.

Lemma normalized_fixed (s : string) :
  upper (strip (upper (strip s))) = upper (strip s).
Proof. by rewrite (strip_upper (upper (strip s))), upper_upper, <- strip_upper, strip_strip. Qed.

Lemma is_ascii_lstrip (s : string) : is_ascii s = true -> is_ascii (lstrip s) = true.
Proof.
  induction s as [| c s IH]; [done |]. cbn [lstrip]. intros Hs.
  destruct (isspace c); [| done].
  cbn [is_ascii] in Hs. apply andb_prop in Hs as [_ Hs]. by apply IH.
Qed.

Lemma is_ascii_rstrip (s : string) : is_ascii s = true -> is_ascii (rstrip s) = true.
Proof.
  induction s as [| c s IH]; [done |]. cbn [rstrip is_ascii].
  intros [Hc Hs]%andb_prop. specialize (IH Hs).
  destruct (rstrip s) as [| c' kept].
  - destruct (isspace c); [done |]. cbn [is_ascii]. by rewrite Hc.
  - cbn [is_ascii] in *. by rewrite Hc, IH.
Qed.

Lemma is_ascii_upper (s : string) : is_ascii s = true -> is_ascii (upper s) = true.
Proof.
  unfold upper. induction s as [| c s IH]; [done |]. cbn [map_chars is_ascii].
  intros [Hc Hs]%andb_prop. rewrite (IH Hs), andb_true_r.
  revert Hc. by destruct c as [[] [] [] [] [] [] [] []].
Qed.

Lemma get_compliance_report_sent (api_key symbol : string) (world : Transport) :
  strip symbol <> "" ->
  requests_sent (get_compliance_report api_key (PyStr symbol)) world =
    [compliance_request api_key (upper (strip symbol))].
Proof.
  intros Hs. unfold get_compliance_report. rewrite (truthy_strip _ Hs).
  pose proof (retrieve_graphql_endpoint_sent api_key compliance_endpoint
                query_compliance_report
                (PyDict [("symbol", PyStr (upper (strip symbol)))])
                (PyStr "getReport") None world) as Hsent.
  revert Hsent. run_net.
  destruct (retrieve_graphql_endpoint _ _ _ _ _ _ world) as [[v | e] sent];
    cbn; intros ->; [| done].
  destruct v as [| | | | | | entries]; try done.
  destruct (has_key "data" entries); [| done].
  destruct (report_of (dict_get entries "data")) as [report | e]; [| done].
  by destruct report.
Qed.

(** X19. For an ASCII argument that is not empty once trimmed, the symbol
    [get_compliance_report] sends and names in its [NotFound] detail is
    ASCII text and a fixed point of the normalization: it is accepted
    as an argument, normalizes to itself, and calling the tool with it sends
    the very request the original argument sends. *)
Theorem normalized_symbol_is_stable (api_key symbol : string) (world : Transport) :
  is_ascii symbol = true ->
  strip symbol <> "" ->
  is_ascii (upper (strip symbol)) = true
  /\ strip (upper (strip symbol)) <> ""
  /\ upper (strip (upper (strip symbol))) = upper (strip symbol)
  /\ requests_sent (get_compliance_report api_key (PyStr (upper (strip symbol)))) world =
       requests_sent (get_compliance_report api_key (PyStr symbol)) world.
Proof.
  intros Hascii Hs.
  assert (strip (upper (strip symbol)) <> "") as Hnormalized.
  { rewrite <- strip_upper, strip_strip. intros Hempty. by apply upper_empty in Hempty. }
  split_and!; [| done | apply normalized_fixed |].
  { unfold strip. by apply is_ascii_upper, is_ascii_rstrip, is_ascii_lstrip. }
  rewrite (get_compliance_report_sent _ _ _ Hnormalized),
          (get_compliance_report_sent _ _ _ Hs).
  by rewrite normalized_fixed.
Qed.

Lemma normalized_symbol_is_stable_witness :
  let world : Transport := fun _ => Raise (OtherError "ConnectionError" "offline") in
  requests_sent (get_compliance_report "zoya-key" (PyStr "MSFT")) world =
    requests_sent (get_compliance_report "zoya-key" (PyStr "  msft ")) world.
Proof.
  intros world.
  apply (proj2 (proj2 (proj2 (normalized_symbol_is_stable "zoya-key" "  msft " world
                                eq_refl ltac:(vm_compute; discriminate))))).
Defined.

(** * Network use of the tools *)

(** X20. Whatever the arguments and whatever the transport does, the
    calculator sends no request, the metrics tool exactly one and the
    compliance tool at most one: none for an argument it rejects, one
    otherwise. *)
Theorem tools_send_at_most_one_request (finnhub_key zoya_key stock : string)
    (symbol ratio cg dv : PyVal) (world : Transport) :
  requests_sent (get_purification_amount ratio cg dv) world = []
  /\ length (requests_sent (get_company_overview_CP2 finnhub_key stock) world) = 1%nat
  /\ (length (requests_sent (get_compliance_report zoya_key symbol) world) <= 1)%nat
  /\ (requests_sent (get_compliance_report zoya_key symbol) world = [] <->
      outcome (get_compliance_report zoya_key symbol) world = Ok invalid_symbol).
Proof.
  split_and!.
  - unfold get_purification_amount, requests_sent.
    by destruct (coerce_inputs ratio cg dv) as [[[r c] d] | e].
  - pose proof (retrieve_from_endpoint_sent finnhub_key (metrics_url stock) world)
      as Hsent.
    unfold get_company_overview_CP2. revert Hsent. run_net.
    destruct (retrieve_from_endpoint finnhub_key (metrics_url stock) world)
      as [[data | e] sent]; cbn; intros ->; [| done].
    destruct (py_in "error" data) as [[] | e]; cbn; try done.
    by destruct (py_get_default data "metric" (PyDict [])).
  - destruct symbol as [| | | | s | |]; try (cbn; lia).
    destruct (String.eqb_spec (strip s) "") as [Hempty | Hs].
    + unfold get_compliance_report. rewrite Hempty. cbn. lia.
    + by rewrite (get_compliance_report_sent _ _ _ Hs).
  - destruct symbol as [| | | | s | |]; try done.
    destruct (String.eqb_spec (strip s) "") as [Hempty | Hs].
    + unfold get_compliance_report. by rewrite Hempty.
    + rewrite (get_compliance_report_sent _ _ _ Hs). split; [done |].
      intros Hinvalid. exfalso.
      destruct (retrieve_graphql_endpoint_returns zoya_key compliance_endpoint
                  query_compliance_report
                  (PyDict [("symbol", PyStr (upper (strip s)))])
                  (PyStr "getReport") None world) as [entries Hadapter].
      rewrite (get_compliance_report_outcome zoya_key s world entries Hs Hadapter)
        in Hinvalid.
      destruct (has_key "data" entries) eqn:Hdata.
      * destruct (report_of (dict_get entries "data")) as [[] | e];
          try discriminate.
        all: injection Hinvalid as ->; discriminate.
      * injection Hinvalid as ->.
        revert Hadapter. clear. unfold retrieve_graphql_endpoint. run_net.
        destruct (world _) as [response | e]; cbn.
        -- destruct (raise_for_status compliance_endpoint response) as [[] | e]; cbn.
           ++ destruct (response_json response) as [body | e]; cbn.
              ** destruct body as [| | | | | | fields]; cbn; try discriminate.
                 destruct (truthy (dict_get fields "errors")); discriminate.
              ** destruct e; discriminate.
           ++ destruct e; discriminate.
        -- destruct e; discriminate.
Qed.
